(** * Boardroom-in-a-Box: the event consumer and its display components

    A shallow embedding of the front end of the repository
    ([frontend/app/page.tsx] and the components it renders) and the
    properties the specification states about it.

    Conventions of the embedding:
    - a JavaScript [number] is the rational it denotes ([Q]); decimal
      literals such as [0.25] are taken at their nominal value, and the
      statements below only compare numbers with constants or repeat the
      products the source writes;
    - an object property that may be missing at run time is an [option]
      ([None] is JavaScript's [undefined]);
    - a [Record<string, T>] is a [gmap string T];
    - an untyped ([any]) JSON object whose properties are read by name is a
      [gmap string jsval];
    - React state is threaded explicitly: every [setX] of the source is a
      function on [State], applied in source order. *)

From Stdlib Require Import QArith Lqa Ascii String DecimalString.
From stdpp Require Import gmap strings list.

Open Scope string_scope.

(** ** JavaScript values and the two operators the source relies on *)

#[local] Unset Elimination Schemes.
Inductive jsval :=
| JNull
| JBool (b : bool)
| JNum (q : Q)
| JStr (s : string)
| JArr (items : list jsval)
| JObj (fields : list (string * jsval)).
#[local] Set Elimination Schemes.

(** [a || b] on a possibly-missing string: the empty string is falsy. *)
Definition or_str (a : option string) (b : string) : string :=
  match a with
  | Some s => if String.eqb s "" then b else s
  | None => b
  end.

(** [a || b] on a possibly-missing number: zero is falsy. *)
Definition or_num (a : option Q) (b : Q) : Q :=
  match a with
  | Some q => if Qeq_bool q 0 then b else q
  | None => b
  end.

(** [a || []] on a possibly-missing array: every array is truthy. *)
Definition or_nil {A} (a : option (list A)) : list A := default [] a.

(** Truthiness of a possibly-missing array or object: present is truthy. *)
Definition present {A} (a : option A) : bool :=
  match a with
  | Some _ => true
  | None => false
  end.

(** [x === 'lit'] where [x] may be undefined. *)
Definition is_str (x : option string) (lit : string) : bool :=
  match x with
  | Some s => String.eqb s lit
  | None => false
  end.

(** [Number.prototype.toLocaleString], which depends on the locale, and the
    string conversion of a number in a template literal are provided by the
    JavaScript runtime; the components are parametric in both. *)
Class NumberFormat := {
  toLocaleString : Q -> string;
  toString : Q -> string
}.

(** ** KPI objects (interfaces [KPI] of KPICard.tsx and FlowTimeline.tsx)

    Both components receive the same run-time objects, taken from
    [agentOutputs]; FlowTimeline declares [trend] optional. *)
Module KPI.
Record t := mk {
  name : string;
  value : Q;
  unit : string;
  trend : option string;
  window : option string;
  definition : option string;
  source_view : option string;
  confidence : option string
}.
End KPI.

(** ** KPICard.tsx *)
Module KPICard.

Inductive icon := TrendingUp | TrendingDown | Minus.

Definition getTrendIcon (kpi : KPI.t) : icon * string :=
  if is_str (KPI.trend kpi) "UP" then (TrendingUp, "w-5 h-5 text-green-500")
  else if is_str (KPI.trend kpi) "DOWN" then (TrendingDown, "w-5 h-5 text-red-500")
  else (Minus, "w-5 h-5 text-gray-400").

Definition formatValue `{NumberFormat} (kpi : KPI.t) : string :=
  if String.eqb (KPI.unit kpi) "$" then "$" +:+ toLocaleString (KPI.value kpi)
  else if String.eqb (KPI.unit kpi) "%" then toString (KPI.value kpi) +:+ "%"
  else toLocaleString (KPI.value kpi) +:+ " " +:+ KPI.unit kpi.

End KPICard.

(** ** Handoff records

    A handoff is an untyped JSON object ([any] in the source); a property
    access [h.p] is the lookup [h !! "p"]. *)
Abbreviation Handoff := (gmap string jsval).

(** [h.p === s] for a string [s]. *)
Definition prop_is (h : Handoff) (p : string) (s : string) : bool :=
  match h !! p with
  | Some (JStr v) => String.eqb v s
  | _ => false
  end.

(** What React renders for [{h.p}]: a string as itself, a number through
    the runtime, and nothing for [undefined], [null] and booleans. *)
Definition render_prop `{NumberFormat} (v : option jsval) : string :=
  match v with
  | Some (JStr s) => s
  | Some (JNum q) => toString q
  | _ => ""
  end.

Module FlowNode.
Record t := mk {
  agent : option string;
  status : string;
  started_at : option string;
  ended_at : option string
}.
End FlowNode.

Module AgentOutput.
Record t := mk {
  kpis : list KPI.t;
  insights : list string
}.
End AgentOutput.

(** ** FlowTimeline.tsx *)
Module FlowTimeline.

Definition nodeOrder : list string := ["CEO"; "CFO"; "CMO"; "CIO"; "Evaluator"].

Definition orderedNodes (nodes : gmap string FlowNode.t) : list (string * FlowNode.t) :=
  omap (fun name => (fun n => (name, n)) <$> nodes !! name) nodeOrder.



Definition formatKPIValue `{NumberFormat} (kpi : KPI.t) : string :=
  if String.eqb (KPI.unit kpi) "$" then "$" +:+ toLocaleString (KPI.value kpi)
  else if String.eqb (KPI.unit kpi) "%" then toString (KPI.value kpi) +:+ "%"
  else toLocaleString (KPI.value kpi) +:+ " " +:+ KPI.unit kpi.

(** The trend [<span>] of a metric tile: its class and its text, or nothing
    when [kpi.trend] is falsy. *)
Record trend_span := { className : string; arrow : string; label : string }.

Definition trendSpan (kpi : KPI.t) : option trend_span :=
  match KPI.trend kpi with
  | Some t =>
      if String.eqb t "" then None
      else Some {|
        className := if String.eqb t "up" then "text-xs text-green-600"
                     else if String.eqb t "down" then "text-xs text-red-600"
                     else "text-xs text-gray-500";
        arrow := if String.eqb t "up" then "↑"
                 else if String.eqb t "down" then "↓" else "→";
        label := t |}
  | None => None
  end.

(** The status badge under a node. *)
Definition statusBadge (status : string) : string :=
  if String.eqb status "active" then "Analyzing..."
  else if String.eqb status "completed" then "Done"
  else if String.eqb status "failed" then "Failed"
  else "Waiting".

(** The colours, role and avatar of each agent. *)
Record agentConfig := {
  bg : string; border : string; text : string; ring : string;
  role : string; avatar : string
}.

Definition evaluatorConfig : agentConfig :=
  {| bg := "bg-slate-50"; border := "border-slate-500"; text := "text-slate-700";
     ring := "ring-slate-400"; role := "Board Evaluator"; avatar := "⚖️" |}.

Definition AGENT_CONFIG : gmap string agentConfig :=
  list_to_map [
    ("CEO", {| bg := "bg-purple-50"; border := "border-purple-500";
               text := "text-purple-700"; ring := "ring-purple-400";
               role := "Chief Executive Officer"; avatar := "👔" |});
    ("CFO", {| bg := "bg-emerald-50"; border := "border-emerald-500";
               text := "text-emerald-700"; ring := "ring-emerald-400";
               role := "Chief Financial Officer"; avatar := "💰" |});
    ("CMO", {| bg := "bg-orange-50"; border := "border-orange-500";
               text := "text-orange-700"; ring := "ring-orange-400";
               role := "Chief Marketing Officer"; avatar := "📊" |});
    ("CIO", {| bg := "bg-blue-50"; border := "border-blue-500";
               text := "text-blue-700"; ring := "ring-blue-400";
               role := "Chief Information Officer"; avatar := "🔧" |});
    ("Evaluator", evaluatorConfig)
  ].

(** [AGENT_CONFIG[name] || AGENT_CONFIG.Evaluator] *)
Definition configOf (name : string) : agentConfig :=
  default evaluatorConfig (AGENT_CONFIG !! name).

(** The status indicator at the corner of a node: the check mark (bouncing
    once the node was animated), the cross, the spinner in the agent's text
    colour, or the grey circle. *)
Inductive statusIcon :=
| CheckCircle (bounce : bool)
| XCircle
| Loader2 (textClass : string)
| Circle.

Definition getStatusIcon (animatedNodes : gset string)
    (name status : string) (isCurrent : bool) : statusIcon :=
  if String.eqb status "completed" then CheckCircle (bool_decide (name ∈ animatedNodes))
  else if String.eqb status "failed" then XCircle
  else if isCurrent || String.eqb status "active" then Loader2 (text (configOf name))
  else Circle.

(** The width of the progress fill, in percent:
    [(completed / shown) * 100]; [None] is the NaN of [0 / 0]. *)
Definition completedNodes (nodes : gmap string FlowNode.t) : list (string * FlowNode.t) :=
  List.filter (fun p => String.eqb (FlowNode.status p.2) "completed") (orderedNodes nodes).

Definition progressWidth (nodes : gmap string FlowNode.t) : option Q :=
  match orderedNodes nodes with
  | [] => None
  | shown =>
      Some (inject_Z (Z.of_nat (length (completedNodes nodes)))
            / inject_Z (Z.of_nat (length shown)) * 100)%Q
  end.

(** The content of the expanded panel: the agent's output when there is
    one, else "Analyzing data..." for an active node, else "Waiting to
    start...". *)
Inductive panel :=
| ShowOutput (output : AgentOutput.t)
| AnalyzingData
| WaitingToStart.

Definition panelBody (nodes : gmap string FlowNode.t)
    (agentOutputs : gmap string AgentOutput.t) (expandedNode : string) : panel :=
  match agentOutputs !! expandedNode with
  | Some output => ShowOutput output
  | None =>
      if is_str (FlowNode.status <$> nodes !! expandedNode) "active"
      then AnalyzingData else WaitingToStart
  end.

End FlowTimeline.

(** ** HandoffDrawer.tsx *)
Module HandoffDrawer.

(** The two stage labels of the "Flow" row: [{handoff.handoff_from}] on the
    left of the arrow and [{handoff.handoff_to}] on the right. *)
Definition flowRow `{NumberFormat} (handoff : Handoff) : string * string :=
  (render_prop (handoff !! "handoff_from"), render_prop (handoff !! "handoff_to")).

(** The direction mark of a signal. *)
Definition signalArrow (direction : option string) : string :=
  if is_str direction "UP" then "↑"
  else if is_str direction "DOWN" then "↓" else "→".

(** A line of "KPIs Passed":
    [{kpi.value}{kpi.unit === '%' ? '%' : ` ${kpi.unit}`}]. *)
Definition kpiLine `{NumberFormat} (kpi : KPI.t) : string :=
  toString (KPI.value kpi)
    +:+ (if String.eqb (KPI.unit kpi) "%" then "%" else " " +:+ KPI.unit kpi).

End HandoffDrawer.

(** ** ConfidenceBadge.tsx *)
Module ConfidenceReport.
(** The interface [ConfidenceReport]: every field is required. *)
Record t := mk {
  level : string;
  score : Q;
  can_proceed : bool;
  summary : string;
  blocking_issues : list string
}.
End ConfidenceReport.

Module Confidence.
(** The object actually held in the [confidence] state ([any]): the
    properties the interface requires may be missing at run time. *)
Record t := mk {
  level : option string;
  score : option Q;
  can_proceed : option bool;
  summary : option string;
  blocking_issues : option (list string)
}.

Definition of_report (r : ConfidenceReport.t) : t :=
  {| level := Some (ConfidenceReport.level r);
     score := Some (ConfidenceReport.score r);
     can_proceed := Some (ConfidenceReport.can_proceed r);
     summary := Some (ConfidenceReport.summary r);
     blocking_issues := Some (ConfidenceReport.blocking_issues r) |}.
End Confidence.

Module ConfidenceBadge.

Inductive icon := ShieldCheck | ShieldAlert | ShieldX.

Definition getIcon (confidence : Confidence.t) : icon :=
  if is_str (Confidence.level confidence) "High" then ShieldCheck
  else if is_str (Confidence.level confidence) "Medium" then ShieldAlert
  else ShieldX.

Definition getColor (confidence : Confidence.t) : string :=
  if is_str (Confidence.level confidence) "High" then "bg-green-100 border-green-200 text-green-800"
  else if is_str (Confidence.level confidence) "Medium" then "bg-yellow-100 border-yellow-200 text-yellow-800"
  else "bg-red-100 border-red-200 text-red-800".

(** [confidence.can_proceed ? 'Ready to proceed' : 'Issues detected'];
    a missing property is falsy. *)
Definition proceedText (confidence : Confidence.t) : string :=
  if default false (Confidence.can_proceed confidence)
  then "Ready to proceed" else "Issues detected".

End ConfidenceBadge.

(** ** FlowSelector.tsx *)
Module FlowSelector.

Record flow := { id : string; name : string; description : string }.

Definition FLOWS : list flow := [
  {| id := "kpi_review"; name := "KPI Review"; description := "CEO → CFO → CMO → CIO → Evaluator" |};
  {| id := "trade_off"; name := "Trade-off"; description := "[CFO || CMO] → Evaluator" |};
  {| id := "scenario"; name := "Scenario"; description := "CFO → CMO → Evaluator" |};
  {| id := "root_cause"; name := "Root Cause"; description := "CIO → CFO → CMO → Evaluator" |}
].

(** [FLOWS.find(f => f.id === selected)?.description] *)
Definition selectedDescription (selected : string) : option string :=
  description <$> List.find (fun f => String.eqb (id f) selected) FLOWS.

End FlowSelector.

(** ** Reading a flow description as an execution graph

    The catalogue writes a flow in arrow notation: stages separated by
    [" → "], a parallel group as ["[A || B]"]. [parse_flow] reads that
    notation back into the stages it names. *)
Module FlowShape.

Inductive step :=
| Stage (agent : string)
| Parallel (agents : list string).

(** The pieces of [s] between occurrences of [sep]; [skip] counts the
    characters of a separator still to be dropped. *)
Fixpoint split_from (sep : string) (skip : nat) (cur : string) (s : string) : list string :=
  match s with
  | EmptyString => [cur]
  | String c rest =>
      match skip with
      | S k => split_from sep k cur rest
      | O =>
          if String.prefix sep s
          then cur :: split_from sep (String.length sep - 1) "" rest
          else split_from sep O (cur +:+ String c "") rest
      end
  end.

Definition split (sep s : string) : list string := split_from sep O "" s.

(** Drops the last character. *)
Fixpoint chop (s : string) : string :=
  match s with
  | EmptyString => EmptyString
  | String c EmptyString => EmptyString
  | String c rest => String c (chop rest)
  end.

Definition parse_step (s : string) : step :=
  match s with
  | String "["%char rest => Parallel (split " || " (chop rest))
  | _ => Stage s
  end.

Definition parse_flow (description : string) : list step :=
  parse_step <$> split " → " description.

(** All stage names of a flow, in order. *)
Definition stages (f : list step) : list string :=
  f ≫= (fun st => match st with Stage a => [a] | Parallel l => l end).

(** The join node: the last step when it is a single stage. *)
Definition join_node (f : list step) : option string :=
  match last f with
  | Some (Stage a) => Some a
  | _ => None
  end.

Definition is_chain (f : list step) : bool :=
  forallb (fun st => match st with Stage _ => true | Parallel _ => false end) f.

End FlowShape.

(** ** EvaluatorScore.tsx *)
Module DimensionScore.
Record t := mk {
  dimension : string;
  score : Q;
  weight : Q;
  weighted_score : Q;
  factors : list string;
  warnings : list string
}.
End DimensionScore.

Module Decision.
Record t := mk {
  action : string;
  impact : string;
  priority : string;
  confidence : option string
}.
End Decision.

Module Conflict.
Record t := mk {
  conflict_id : option string;
  between : list string;
  issue : string;
  severity : string;
  details : option string;
  resolution : option string;
  constraint_violated : option string
}.
End Conflict.

Module Evaluation.
Record t := mk {
  overall_score : Q;
  risk_level : string;
  confidence : string;
  has_blocking_conflicts : bool;
  dimension_scores : list DimensionScore.t;
  decisions : list Decision.t;
  conflicts : list Conflict.t
}.
End Evaluation.

Module EvaluatorScore.

Definition getRiskColor (risk : string) : string :=
  if String.eqb risk "Low" then "text-green-600 bg-green-100"
  else if String.eqb risk "Medium" then "text-yellow-600 bg-yellow-100"
  else if String.eqb risk "High" then "text-orange-600 bg-orange-100"
  else "text-red-600 bg-red-100".

Definition getScoreColor (score : Q) : string :=
  if Qle_bool 8 score then "text-green-600"
  else if Qle_bool 6 score then "text-yellow-600"
  else if Qle_bool 4 score then "text-orange-600"
  else "text-red-600".

(** The colour of a dimension's bar (lines 132-137). *)
Definition barColor (score : Q) : string :=
  if Qle_bool 8 score then "bg-green-500"
  else if Qle_bool 6 score then "bg-yellow-500"
  else if Qle_bool 4 score then "bg-orange-500"
  else "bg-red-500".

End EvaluatorScore.

(** ** ConflictPanel.tsx *)
Module ConflictPanel.

Inductive icon := XCircle | AlertTriangle | AlertCircle.

Definition getSeverityIcon (severity : string) : icon * string :=
  if String.eqb severity "Critical" then (XCircle, "w-6 h-6 text-red-600")
  else if String.eqb severity "High" then (AlertTriangle, "w-6 h-6 text-orange-500")
  else (AlertCircle, "w-6 h-6 text-yellow-500").

Definition getSeverityColor (severity : string) : string :=
  if String.eqb severity "Critical" then "border-red-500 bg-red-50"
  else if String.eqb severity "High" then "border-orange-500 bg-orange-50"
  else "border-yellow-500 bg-yellow-50".

(** The class of the severity badge (lines 57-59). *)
Definition badgeColor (severity : string) : string :=
  if String.eqb severity "Critical" then "bg-red-200 text-red-800"
  else if String.eqb severity "High" then "bg-orange-200 text-orange-800"
  else "bg-yellow-200 text-yellow-800".

(** One rendered conflict: its frame, icon and badge classes. *)
Record card := { frame : string; mark : icon; badge : string; title : string }.

Definition render (conflicts : list Conflict.t) : list card :=
  (fun c => {| frame := getSeverityColor (Conflict.severity c);
               mark := (getSeverityIcon (Conflict.severity c)).1;
               badge := badgeColor (Conflict.severity c);
               title := Conflict.issue c |}) <$> conflicts.

End ConflictPanel.

(** ** ConstraintsPanel.tsx *)
Module Constraint.
(** [value] is a number, or an array for a range. *)
Inductive value :=
| Num (v : Q)
| Arr (vs : list Q).

Record t := mk {
  name : string;
  operator : string;
  val : value;
  unit : option string
}.
End Constraint.

Module ConstraintsPanel.

Inductive icon := CheckCircle | XCircle | AlertCircle.

Definition getStatusIcon (status : gmap string string) (key : string) : icon * string :=
  if is_str (status !! key) "PASS" then (CheckCircle, "w-5 h-5 text-green-500")
  else if is_str (status !! key) "VIOLATED" then (XCircle, "w-5 h-5 text-red-500")
  else (AlertCircle, "w-5 h-5 text-gray-400").

(** [${val[i]}]: an element of the array, or "undefined" past its end. *)
Definition showItem `{NumberFormat} (vs : list Q) (i : nat) : string :=
  match vs !! i with
  | Some v => toString v
  | None => "undefined"
  end.

Definition formatValue `{NumberFormat} (constraint : Constraint.t) : string :=
  let unit := or_str (Constraint.unit constraint) "" in
  match Constraint.val constraint with
  | Constraint.Arr vs => showItem vs 0 +:+ unit +:+ " - " +:+ showItem vs 1 +:+ unit
  | Constraint.Num v =>
      let op := Constraint.operator constraint in
      if String.eqb op ">=" then "≥ " +:+ toString v +:+ unit
      else if String.eqb op "<=" then "≤ " +:+ toString v +:+ unit
      else if String.eqb op "==" then "= " +:+ toString v +:+ unit
      else toString v +:+ unit
  end.

(** The class of a constraint's tile (lines 59-61). *)
Definition tileColor (status : gmap string string) (key : string) : string :=
  if is_str (status !! key) "PASS" then "border-green-200 bg-green-50"
  else if is_str (status !! key) "VIOLATED" then "border-red-200 bg-red-50"
  else "border-gray-200 bg-gray-50".

Record tile := { key : string; color : string; mark : icon; label : string; text : string }.

(** The panel: nothing when there is no constraint, otherwise one tile per
    constraint. *)
Definition render `{NumberFormat} (constraints : gmap string Constraint.t)
    (status : gmap string string) : option (list tile) :=
  match map_to_list constraints with
  | [] => None
  | entries =>
      Some ((fun e => {| key := e.1; color := tileColor status e.1;
                         mark := (getStatusIcon status e.1).1;
                         label := Constraint.name e.2;
                         text := formatValue e.2 |}) <$> entries)
  end.

End ConstraintsPanel.

(** ** page.tsx: data held by the page *)
Module SessionRecord.
(** The object passed to [setSession]. *)
Record t := mk {
  session_id : option string;
  ended_at : option string;
  constraints_status : option (gmap string string)
}.
End SessionRecord.

Module DecisionSummary.
Record t := mk {
  summary : option string;
  key_findings : list string;
  recommendations : list string;
  risks : list string;
  confidence_level : option string;
  next_steps : list string
}.
End DecisionSummary.

Module ChatResponse.
(** The JSON body answered by [POST /api/chat], as far as the page reads it.
    A property is either missing ([None], [undefined] in the source) or
    holds a value of its type; a body in which a property holds JSON
    [null] is not among the values of this record. *)
Record t := mk {
  detail : option string;
  flow_used : string;
  flow_reasoning : string;
  message : option string;
  key_findings : option (list string);
  recommendations : option (list string);
  risks : option (list string);
  confidence_level : option string;
  next_steps : option (list string);
  agents_involved : option (list string);
  agent_outputs : option (gmap string AgentOutput.t);
  handoffs : option (list Handoff);
  evaluation : option Evaluation.t;
  overall_score : option Q;
  confidence : option Q;
  session_id : option string
}.
End ChatResponse.

Module EventSource.
(** A server-sent-event connection; [open] is false once [close()] ran. *)
Record t := mk { url : string; open : bool }.

Definition close (es : t) : t := {| url := url es; open := false |}.
End EventSource.

(** The messages of the event stream, with their parsed payloads. *)
Module Event.
Inductive t :=
| session_start (session_id : string) (flow_nodes : list string)
| confidence (data : Confidence.t)
| agent_start (agent : string) (started_at : option string)
| agent_complete (agent : string) (ended_at : option string)
    (kpis : option (list KPI.t)) (insights : option (list string))
| handoff (data : Handoff)
| evaluation (data : Evaluation.t)
| session_complete (session_id : option string) (ended_at : option string)
    (constraints_status : option (gmap string string))
| agent_error (agent : string) (error : string).
End Event.

(** ** page.tsx: the component state

    The [useState] cells of [Home], the [eventSourceRef] cell, and the two
    pieces of the environment the callbacks act on: the [EventSource]
    objects created so far ([sources], indexed by creation order) and the
    number of chat requests still awaiting their response ([inflight]). *)
Module Page.

Record State := mkState {
  session : option SessionRecord.t;
  loading : bool;
  selectedFlow : string;
  selectedMode : string;
  selectedHandoff : option Handoff;
  nodes : gmap string FlowNode.t;
  currentNode : option string;
  confidence : option Confidence.t;
  agentOutputs : gmap string AgentOutput.t;
  handoffs : list Handoff;
  evaluation : option Evaluation.t;
  constraintsStatus : gmap string string;
  streamStatus : string;
  question : string;
  flowReasoning : string;
  decisionSummary : option DecisionSummary.t;
  eventSourceRef : option nat;
  sources : list EventSource.t;
  inflight : nat
}.

(** One setter per state cell; each leaves every other cell as it is. *)
Definition setSession (v : option SessionRecord.t) (s : State) : State :=
  {| session := v; loading := loading s; selectedFlow := selectedFlow s;
     selectedMode := selectedMode s; selectedHandoff := selectedHandoff s;
     nodes := nodes s; currentNode := currentNode s;
     confidence := confidence s; agentOutputs := agentOutputs s;
     handoffs := handoffs s; evaluation := evaluation s;
     constraintsStatus := constraintsStatus s;
     streamStatus := streamStatus s; question := question s;
     flowReasoning := flowReasoning s; decisionSummary := decisionSummary s;
     eventSourceRef := eventSourceRef s; sources := sources s;
     inflight := inflight s |}.

Definition setLoading (v : bool) (s : State) : State :=
  {| session := session s; loading := v; selectedFlow := selectedFlow s;
     selectedMode := selectedMode s; selectedHandoff := selectedHandoff s;
     nodes := nodes s; currentNode := currentNode s;
     confidence := confidence s; agentOutputs := agentOutputs s;
     handoffs := handoffs s; evaluation := evaluation s;
     constraintsStatus := constraintsStatus s;
     streamStatus := streamStatus s; question := question s;
     flowReasoning := flowReasoning s; decisionSummary := decisionSummary s;
     eventSourceRef := eventSourceRef s; sources := sources s;
     inflight := inflight s |}.

Definition setSelectedFlow (v : string) (s : State) : State :=
  {| session := session s; loading := loading s; selectedFlow := v;
     selectedMode := selectedMode s; selectedHandoff := selectedHandoff s;
     nodes := nodes s; currentNode := currentNode s;
     confidence := confidence s; agentOutputs := agentOutputs s;
     handoffs := handoffs s; evaluation := evaluation s;
     constraintsStatus := constraintsStatus s;
     streamStatus := streamStatus s; question := question s;
     flowReasoning := flowReasoning s; decisionSummary := decisionSummary s;
     eventSourceRef := eventSourceRef s; sources := sources s;
     inflight := inflight s |}.

Definition setSelectedMode (v : string) (s : State) : State :=
  {| session := session s; loading := loading s;
     selectedFlow := selectedFlow s; selectedMode := v;
     selectedHandoff := selectedHandoff s; nodes := nodes s;
     currentNode := currentNode s; confidence := confidence s;
     agentOutputs := agentOutputs s; handoffs := handoffs s;
     evaluation := evaluation s; constraintsStatus := constraintsStatus s;
     streamStatus := streamStatus s; question := question s;
     flowReasoning := flowReasoning s; decisionSummary := decisionSummary s;
     eventSourceRef := eventSourceRef s; sources := sources s;
     inflight := inflight s |}.

Definition setSelectedHandoff (v : option Handoff) (s : State) : State :=
  {| session := session s; loading := loading s;
     selectedFlow := selectedFlow s; selectedMode := selectedMode s;
     selectedHandoff := v; nodes := nodes s; currentNode := currentNode s;
     confidence := confidence s; agentOutputs := agentOutputs s;
     handoffs := handoffs s; evaluation := evaluation s;
     constraintsStatus := constraintsStatus s;
     streamStatus := streamStatus s; question := question s;
     flowReasoning := flowReasoning s; decisionSummary := decisionSummary s;
     eventSourceRef := eventSourceRef s; sources := sources s;
     inflight := inflight s |}.

Definition setNodes (v : gmap string FlowNode.t) (s : State) : State :=
  {| session := session s; loading := loading s;
     selectedFlow := selectedFlow s; selectedMode := selectedMode s;
     selectedHandoff := selectedHandoff s; nodes := v;
     currentNode := currentNode s; confidence := confidence s;
     agentOutputs := agentOutputs s; handoffs := handoffs s;
     evaluation := evaluation s; constraintsStatus := constraintsStatus s;
     streamStatus := streamStatus s; question := question s;
     flowReasoning := flowReasoning s; decisionSummary := decisionSummary s;
     eventSourceRef := eventSourceRef s; sources := sources s;
     inflight := inflight s |}.

Definition setCurrentNode (v : option string) (s : State) : State :=
  {| session := session s; loading := loading s;
     selectedFlow := selectedFlow s; selectedMode := selectedMode s;
     selectedHandoff := selectedHandoff s; nodes := nodes s;
     currentNode := v; confidence := confidence s;
     agentOutputs := agentOutputs s; handoffs := handoffs s;
     evaluation := evaluation s; constraintsStatus := constraintsStatus s;
     streamStatus := streamStatus s; question := question s;
     flowReasoning := flowReasoning s; decisionSummary := decisionSummary s;
     eventSourceRef := eventSourceRef s; sources := sources s;
     inflight := inflight s |}.

Definition setConfidence (v : option Confidence.t) (s : State) : State :=
  {| session := session s; loading := loading s;
     selectedFlow := selectedFlow s; selectedMode := selectedMode s;
     selectedHandoff := selectedHandoff s; nodes := nodes s;
     currentNode := currentNode s; confidence := v;
     agentOutputs := agentOutputs s; handoffs := handoffs s;
     evaluation := evaluation s; constraintsStatus := constraintsStatus s;
     streamStatus := streamStatus s; question := question s;
     flowReasoning := flowReasoning s; decisionSummary := decisionSummary s;
     eventSourceRef := eventSourceRef s; sources := sources s;
     inflight := inflight s |}.

Definition setAgentOutputs (v : gmap string AgentOutput.t) (s : State) : State :=
  {| session := session s; loading := loading s;
     selectedFlow := selectedFlow s; selectedMode := selectedMode s;
     selectedHandoff := selectedHandoff s; nodes := nodes s;
     currentNode := currentNode s; confidence := confidence s;
     agentOutputs := v; handoffs := handoffs s; evaluation := evaluation s;
     constraintsStatus := constraintsStatus s;
     streamStatus := streamStatus s; question := question s;
     flowReasoning := flowReasoning s; decisionSummary := decisionSummary s;
     eventSourceRef := eventSourceRef s; sources := sources s;
     inflight := inflight s |}.

Definition setHandoffs (v : list Handoff) (s : State) : State :=
  {| session := session s; loading := loading s;
     selectedFlow := selectedFlow s; selectedMode := selectedMode s;
     selectedHandoff := selectedHandoff s; nodes := nodes s;
     currentNode := currentNode s; confidence := confidence s;
     agentOutputs := agentOutputs s; handoffs := v;
     evaluation := evaluation s; constraintsStatus := constraintsStatus s;
     streamStatus := streamStatus s; question := question s;
     flowReasoning := flowReasoning s; decisionSummary := decisionSummary s;
     eventSourceRef := eventSourceRef s; sources := sources s;
     inflight := inflight s |}.

Definition setEvaluation (v : option Evaluation.t) (s : State) : State :=
  {| session := session s; loading := loading s;
     selectedFlow := selectedFlow s; selectedMode := selectedMode s;
     selectedHandoff := selectedHandoff s; nodes := nodes s;
     currentNode := currentNode s; confidence := confidence s;
     agentOutputs := agentOutputs s; handoffs := handoffs s; evaluation := v;
     constraintsStatus := constraintsStatus s;
     streamStatus := streamStatus s; question := question s;
     flowReasoning := flowReasoning s; decisionSummary := decisionSummary s;
     eventSourceRef := eventSourceRef s; sources := sources s;
     inflight := inflight s |}.

Definition setConstraintsStatus (v : gmap string string) (s : State) : State :=
  {| session := session s; loading := loading s;
     selectedFlow := selectedFlow s; selectedMode := selectedMode s;
     selectedHandoff := selectedHandoff s; nodes := nodes s;
     currentNode := currentNode s; confidence := confidence s;
     agentOutputs := agentOutputs s; handoffs := handoffs s;
     evaluation := evaluation s; constraintsStatus := v;
     streamStatus := streamStatus s; question := question s;
     flowReasoning := flowReasoning s; decisionSummary := decisionSummary s;
     eventSourceRef := eventSourceRef s; sources := sources s;
     inflight := inflight s |}.

Definition setStreamStatus (v : string) (s : State) : State :=
  {| session := session s; loading := loading s;
     selectedFlow := selectedFlow s; selectedMode := selectedMode s;
     selectedHandoff := selectedHandoff s; nodes := nodes s;
     currentNode := currentNode s; confidence := confidence s;
     agentOutputs := agentOutputs s; handoffs := handoffs s;
     evaluation := evaluation s; constraintsStatus := constraintsStatus s;
     streamStatus := v; question := question s;
     flowReasoning := flowReasoning s; decisionSummary := decisionSummary s;
     eventSourceRef := eventSourceRef s; sources := sources s;
     inflight := inflight s |}.

Definition setQuestion (v : string) (s : State) : State :=
  {| session := session s; loading := loading s;
     selectedFlow := selectedFlow s; selectedMode := selectedMode s;
     selectedHandoff := selectedHandoff s; nodes := nodes s;
     currentNode := currentNode s; confidence := confidence s;
     agentOutputs := agentOutputs s; handoffs := handoffs s;
     evaluation := evaluation s; constraintsStatus := constraintsStatus s;
     streamStatus := streamStatus s; question := v;
     flowReasoning := flowReasoning s; decisionSummary := decisionSummary s;
     eventSourceRef := eventSourceRef s; sources := sources s;
     inflight := inflight s |}.

Definition setFlowReasoning (v : string) (s : State) : State :=
  {| session := session s; loading := loading s;
     selectedFlow := selectedFlow s; selectedMode := selectedMode s;
     selectedHandoff := selectedHandoff s; nodes := nodes s;
     currentNode := currentNode s; confidence := confidence s;
     agentOutputs := agentOutputs s; handoffs := handoffs s;
     evaluation := evaluation s; constraintsStatus := constraintsStatus s;
     streamStatus := streamStatus s; question := question s;
     flowReasoning := v; decisionSummary := decisionSummary s;
     eventSourceRef := eventSourceRef s; sources := sources s;
     inflight := inflight s |}.

Definition setDecisionSummary (v : option DecisionSummary.t) (s : State) : State :=
  {| session := session s; loading := loading s;
     selectedFlow := selectedFlow s; selectedMode := selectedMode s;
     selectedHandoff := selectedHandoff s; nodes := nodes s;
     currentNode := currentNode s; confidence := confidence s;
     agentOutputs := agentOutputs s; handoffs := handoffs s;
     evaluation := evaluation s; constraintsStatus := constraintsStatus s;
     streamStatus := streamStatus s; question := question s;
     flowReasoning := flowReasoning s; decisionSummary := v;
     eventSourceRef := eventSourceRef s; sources := sources s;
     inflight := inflight s |}.

Definition setEventSourceRef (v : option nat) (s : State) : State :=
  {| session := session s; loading := loading s;
     selectedFlow := selectedFlow s; selectedMode := selectedMode s;
     selectedHandoff := selectedHandoff s; nodes := nodes s;
     currentNode := currentNode s; confidence := confidence s;
     agentOutputs := agentOutputs s; handoffs := handoffs s;
     evaluation := evaluation s; constraintsStatus := constraintsStatus s;
     streamStatus := streamStatus s; question := question s;
     flowReasoning := flowReasoning s; decisionSummary := decisionSummary s;
     eventSourceRef := v; sources := sources s; inflight := inflight s |}.

Definition setSources (v : list EventSource.t) (s : State) : State :=
  {| session := session s; loading := loading s;
     selectedFlow := selectedFlow s; selectedMode := selectedMode s;
     selectedHandoff := selectedHandoff s; nodes := nodes s;
     currentNode := currentNode s; confidence := confidence s;
     agentOutputs := agentOutputs s; handoffs := handoffs s;
     evaluation := evaluation s; constraintsStatus := constraintsStatus s;
     streamStatus := streamStatus s; question := question s;
     flowReasoning := flowReasoning s; decisionSummary := decisionSummary s;
     eventSourceRef := eventSourceRef s; sources := v; inflight := inflight s |}.

Definition setInflight (v : nat) (s : State) : State :=
  {| session := session s; loading := loading s;
     selectedFlow := selectedFlow s; selectedMode := selectedMode s;
     selectedHandoff := selectedHandoff s; nodes := nodes s;
     currentNode := currentNode s; confidence := confidence s;
     agentOutputs := agentOutputs s; handoffs := handoffs s;
     evaluation := evaluation s; constraintsStatus := constraintsStatus s;
     streamStatus := streamStatus s; question := question s;
     flowReasoning := flowReasoning s; decisionSummary := decisionSummary s;
     eventSourceRef := eventSourceRef s; sources := sources s; inflight := v |}.

Definition initial : State :=
  {| session := None; loading := false; selectedFlow := "kpi_review";
     selectedMode := "summary"; selectedHandoff := None; nodes := ∅;
     currentNode := None; confidence := None; agentOutputs := ∅;
     handoffs := []; evaluation := None; constraintsStatus := ∅;
     streamStatus := ""; question := ""; flowReasoning := "";
     decisionSummary := None; eventSourceRef := None; sources := [];
     inflight := 0 |}.

Notation "s |> f" := (f s) (at level 45, left associativity, only parsing).

(** A functional update [setNodes(prev => f(prev))]. *)
Definition updNodes (f : gmap string FlowNode.t -> gmap string FlowNode.t) (s : State) : State :=
  setNodes (f (nodes s)) s.

(** [${x}] in a template literal, for a property that may be missing. *)
Definition show (x : option string) : string := default "undefined" x.

(** *** The node objects written by the stream handlers

    [{ ...prev[agent], status: ..., started_at: ... }]: the properties of
    the previous node, when there is one, with the listed ones replaced. *)
Definition pendingNode (nodeName : string) : FlowNode.t :=
  {| FlowNode.agent := Some nodeName; FlowNode.status := "pending";
     FlowNode.started_at := None; FlowNode.ended_at := None |}.

Definition activeNode (prev : option FlowNode.t) (started_at : option string) : FlowNode.t :=
  {| FlowNode.agent := prev ≫= FlowNode.agent; FlowNode.status := "active";
     FlowNode.started_at := started_at;
     FlowNode.ended_at := prev ≫= FlowNode.ended_at |}.

Definition completedNode (prev : option FlowNode.t) (ended_at : option string) : FlowNode.t :=
  {| FlowNode.agent := prev ≫= FlowNode.agent; FlowNode.status := "completed";
     FlowNode.started_at := prev ≫= FlowNode.started_at;
     FlowNode.ended_at := ended_at |}.

Definition failedNode (prev : option FlowNode.t) : FlowNode.t :=
  {| FlowNode.agent := prev ≫= FlowNode.agent; FlowNode.status := "failed";
     FlowNode.started_at := prev ≫= FlowNode.started_at;
     FlowNode.ended_at := prev ≫= FlowNode.ended_at |}.

(** [data.flow.nodes.forEach(nodeName => initialNodes[nodeName] = ...)] *)
Definition initialNodes (flow_nodes : list string) : gmap string FlowNode.t :=
  foldl (fun m nodeName => <[nodeName := pendingNode nodeName]> m) ∅ flow_nodes.

(** [eventSource.close()] on the connection created [i]-th. *)
Definition closeSource (i : nat) (s : State) : State :=
  setSources (alter EventSource.close i (sources s)) s.

Definition isOpen (i : nat) (s : State) : bool :=
  match sources s !! i with
  | Some es => EventSource.open es
  | None => false
  end.

(** *** The listeners registered by [runFlowWithStreaming]

    [i] is the connection the listener was registered on (the [eventSource]
    captured by the closure). *)
Definition handle (i : nat) (e : Event.t) (s : State) : State :=
  match e with
  | Event.session_start session_id flow_nodes =>
      s |> setStreamStatus ("Session " +:+ session_id +:+ " started")
        |> setNodes (initialNodes flow_nodes)
  | Event.confidence data =>
      s |> setConfidence (Some data)
        |> setStreamStatus ("Confidence: " +:+ show (Confidence.level data))
  | Event.agent_start agent started_at =>
      s |> setCurrentNode (Some agent)
        |> setStreamStatus ("Running " +:+ agent +:+ "...")
        |> updNodes (fun prev => <[agent := activeNode (prev !! agent) started_at]> prev)
  | Event.agent_complete agent ended_at kpis insights =>
      let s1 :=
        s |> setStreamStatus (agent +:+ " complete")
          |> updNodes (fun prev => <[agent := completedNode (prev !! agent) ended_at]> prev) in
      if present kpis || present insights
      then setAgentOutputs
             (<[agent := {| AgentOutput.kpis := or_nil kpis;
                            AgentOutput.insights := or_nil insights |}]>
                (agentOutputs s1)) s1
      else s1
  | Event.handoff data =>
      setHandoffs (handoffs s ++ [data]) s
  | Event.evaluation data =>
      s |> setEvaluation (Some data)
        |> setStreamStatus "Evaluation complete"
  | Event.session_complete session_id ended_at constraints_status =>
      s |> setCurrentNode None
        |> setConstraintsStatus (default ∅ constraints_status)
        |> setStreamStatus "Complete"
        |> setLoading false
        |> setSession (Some {| SessionRecord.session_id := session_id;
                               SessionRecord.ended_at := ended_at;
                               SessionRecord.constraints_status := constraints_status |})
        |> closeSource i
  | Event.agent_error agent error =>
      s |> setStreamStatus ("Error: " +:+ error)
        |> updNodes (fun prev => <[agent := failedNode (prev !! agent)]> prev)
  end.

Definition onopen (s : State) : State := setStreamStatus "Connected..." s.

Definition onerror (i : nat) (s : State) : State :=
  s |> setStreamStatus "Connection error - check console"
    |> setLoading false
    |> closeSource i.

(** A closed connection dispatches nothing. *)
Definition deliver (i : nat) (e : Event.t) (s : State) : State :=
  if isOpen i s then handle i e s else s.

(** The state after the messages [es] arrived, in order, on connection [i]. *)
Definition replay (i : nat) (es : list Event.t) (s : State) : State :=
  foldl (fun st e => deliver i e st) s es.

(** *** [runFlowWithStreaming] *)

(** [str.replace(c, d)] with string arguments: the first occurrence only. *)
Fixpoint replace_first (c d : ascii) (str : string) : string :=
  match str with
  | EmptyString => EmptyString
  | String x rest =>
      if Ascii.eqb x c then String d rest else String x (replace_first c d rest)
  end.

Definition streamUrl (NEXT_PUBLIC_API_URL : option string) (s : State) : string :=
  let flowType := replace_first "_" "-" (selectedFlow s) in
  let apiBase := or_str NEXT_PUBLIC_API_URL "http://localhost:8000" in
  apiBase +:+ "/api/flows/stream/" +:+ flowType +:+ "?mode=" +:+ selectedMode s
    +:+ "&period_start=2025-11-01&period_end=2026-01-30".

(** Lines 60-70: "Reset state". *)
Definition resetForStreaming (s : State) : State :=
  s |> setLoading true
    |> setSession None
    |> setNodes ∅
    |> setCurrentNode None
    |> setConfidence None
    |> setAgentOutputs ∅
    |> setHandoffs []
    |> setEvaluation None
    |> setConstraintsStatus ∅
    |> setStreamStatus "Starting...".

(** Lines 72-75: "Close existing connection". *)
Definition closeExisting (s : State) : State :=
  match eventSourceRef s with
  | Some i => closeSource i s
  | None => s
  end.

(** Lines 82-83: [new EventSource(url)], stored in [eventSourceRef]. *)
Definition openSource (url : string) (s : State) : State :=
  s |> setEventSourceRef (Some (length (sources s)))
    |> setSources (sources s ++ [ {| EventSource.url := url; EventSource.open := true |} ]).

Definition runFlowWithStreaming (NEXT_PUBLIC_API_URL : option string) (s : State) : State :=
  let s1 := closeExisting (resetForStreaming s) in
  openSource (streamUrl NEXT_PUBLIC_API_URL s1) s1.

(** *** [runFlowFromQuestion] *)

(** The characters [String.prototype.trim] removes are the white space and
    line terminators of ECMAScript: U+0009 to U+000D, U+0020, U+00A0,
    U+1680, U+2000 to U+200A, U+2028, U+2029, U+202F, U+205F, U+3000 and
    U+FEFF.  A [string] holds the UTF-8 bytes of the text, so the ones
    beyond ASCII take two or three bytes. *)

(** The ASCII characters [String.prototype.trim] removes. *)
Definition is_space (a : ascii) : bool :=
  let n := nat_of_ascii a in
  (Nat.leb 9 n && Nat.leb n 13) || Nat.eqb n 32.

(** U+00A0, the bytes C2 A0. *)
Definition is_space2 (a b : ascii) : bool :=
  Nat.eqb (nat_of_ascii a) 194 && Nat.eqb (nat_of_ascii b) 160.

(** U+1680 (E1 9A 80), U+2000 to U+200A (E2 80 80 to E2 80 8A), U+2028,
    U+2029, U+202F (E2 80 A8, A9, AF), U+205F (E2 81 9F), U+3000
    (E3 80 80) and U+FEFF (EF BB BF). *)
Definition is_space3 (a b c : ascii) : bool :=
  let x := nat_of_ascii a in
  let y := nat_of_ascii b in
  let z := nat_of_ascii c in
  (Nat.eqb x 225 && Nat.eqb y 154 && Nat.eqb z 128)
  || (Nat.eqb x 226 && Nat.eqb y 128 &&
        ((Nat.leb 128 z && Nat.leb z 138) || Nat.eqb z 168 || Nat.eqb z 169 || Nat.eqb z 175))
  || (Nat.eqb x 226 && Nat.eqb y 129 && Nat.eqb z 159)
  || (Nat.eqb x 227 && Nat.eqb y 128 && Nat.eqb z 128)
  || (Nat.eqb x 239 && Nat.eqb y 187 && Nat.eqb z 191).

(** [!question.trim()]: nothing but white space. *)
Fixpoint blank (q : string) : bool :=
  match q with
  | EmptyString => true
  | String a rest =>
      if is_space a then blank rest
      else
        match rest with
        | String b rest2 =>
            if is_space2 a b then blank rest2
            else
              match rest2 with
              | String c rest3 => is_space3 a b c && blank rest3
              | EmptyString => false
              end
        | EmptyString => false
        end
  end.

(** Lines 207-219: "Reset state". *)
Definition resetForQuestion (s : State) : State :=
  s |> setLoading true
    |> setSession None
    |> setNodes ∅
    |> setCurrentNode None
    |> setConfidence None
    |> setAgentOutputs ∅
    |> setHandoffs []
    |> setEvaluation None
    |> setConstraintsStatus ∅
    |> setDecisionSummary None
    |> setFlowReasoning ""
    |> setStreamStatus "Analyzing question...".

(** The synchronous part of [runFlowFromQuestion], up to the [await]. *)
Definition askBegin (s : State) : State :=
  if blank (question s) then s
  else setInflight (S (inflight s)) (resetForQuestion s).

(** How the awaited request settles: the promise rejects, or a response
    arrives with its [ok] flag and parsed body. *)
Inductive chatOutcome :=
| Rejected (message : string)
| Answered (ok : bool) (data : ChatResponse.t).

(** Lines 250-254: "Build nodes from agents involved". *)
Definition nodeData (agents_involved : option (list string)) : gmap string FlowNode.t :=
  foldl (fun m agent =>
           <[agent := {| FlowNode.agent := Some agent; FlowNode.status := "completed";
                         FlowNode.started_at := None; FlowNode.ended_at := None |}]> m)
        ∅ (or_nil agents_involved).

(** Line 273. *)
Definition riskFromConfidence (confidence_level : option string) : string :=
  if is_str confidence_level "High" then "Low"
  else if is_str confidence_level "Low" then "High"
  else "Medium".

Definition builtDimension (dimension : string) (score weight weighted_score : Q) : DimensionScore.t :=
  {| DimensionScore.dimension := dimension; DimensionScore.score := score;
     DimensionScore.weight := weight; DimensionScore.weighted_score := weighted_score;
     DimensionScore.factors := []; DimensionScore.warnings := [] |}.

(** [recommendations.map((rec, idx) => ...)], lines 282-286. *)
Definition builtDecisions (recommendations : list string) : list Decision.t :=
  imap (fun idx rec =>
          {| Decision.action := rec; Decision.impact := "See details";
             Decision.priority := if Nat.eqb idx 0 then "High" else "Medium";
             Decision.confidence := None |}) recommendations.

(** [risks.map((risk, idx) => ...)], lines 287-291. *)
Definition builtConflicts (risks : list string) : list Conflict.t :=
  List.map (fun risk =>
              {| Conflict.conflict_id := None; Conflict.between := ["Analysis"];
                 Conflict.issue := risk; Conflict.severity := "Medium";
                 Conflict.details := None; Conflict.resolution := None;
                 Conflict.constraint_violated := None |}) risks.

(** Lines 271-292: the evaluation built from the response when it carries
    no [evaluation] but an [overall_score]. *)
Definition buildEvaluation (data : ChatResponse.t) (overall_score : Q) : Evaluation.t :=
  {| Evaluation.overall_score := overall_score;
     Evaluation.risk_level := riskFromConfidence (ChatResponse.confidence_level data);
     Evaluation.confidence := or_str (ChatResponse.confidence_level data) "Medium";
     Evaluation.has_blocking_conflicts := false;
     Evaluation.dimension_scores := [
       builtDimension "Strategic Alignment" overall_score 0.3 (overall_score * 0.3);
       builtDimension "Financial Impact" (overall_score * 0.9) 0.25 (overall_score * 0.9 * 0.25);
       builtDimension "Market Analysis" (overall_score * 0.95) 0.25 (overall_score * 0.95 * 0.25);
       builtDimension "Data Quality" (overall_score * 0.85) 0.2 (overall_score * 0.85 * 0.2)
     ];
     Evaluation.decisions := or_nil (builtDecisions <$> ChatResponse.recommendations data);
     Evaluation.conflicts := or_nil (builtConflicts <$> ChatResponse.risks data) |}.

(** Lines 267-293: "Use real evaluation if available, otherwise build from
    response".  [data.overall_score !== undefined] is [Some _] here: a
    body whose [overall_score] is JSON [null] is not a [ChatResponse.t]. *)
Definition storeEvaluation (data : ChatResponse.t) (s : State) : State :=
  match ChatResponse.evaluation data with
  | Some ev => setEvaluation (Some ev) s
  | None =>
      match ChatResponse.overall_score data with
      | Some overall_score => setEvaluation (Some (buildEvaluation data overall_score)) s
      | None => s
      end
  end.

(** Lines 296-299: "Set confidence". *)
Definition builtConfidence (data : ChatResponse.t) : Confidence.t :=
  {| Confidence.level := Some (or_str (ChatResponse.confidence_level data) "Medium");
     Confidence.score := Some (or_num (ChatResponse.confidence data) 0.8);
     Confidence.can_proceed := None;
     Confidence.summary := None;
     Confidence.blocking_issues := None |}.

(** Lines 236-306: the body of the [try] after a successful response. *)
Definition showAnswer (now : string) (data : ChatResponse.t) (s : State) : State :=
  s |> setSelectedFlow (ChatResponse.flow_used data)
    |> setFlowReasoning (ChatResponse.flow_reasoning data)
    |> setDecisionSummary (Some {|
         DecisionSummary.summary := ChatResponse.message data;
         DecisionSummary.key_findings := or_nil (ChatResponse.key_findings data);
         DecisionSummary.recommendations := or_nil (ChatResponse.recommendations data);
         DecisionSummary.risks := or_nil (ChatResponse.risks data);
         DecisionSummary.confidence_level := ChatResponse.confidence_level data;
         DecisionSummary.next_steps := or_nil (ChatResponse.next_steps data) |})
    |> setNodes (nodeData (ChatResponse.agents_involved data))
    |> (fun s => match ChatResponse.agent_outputs data with
                 | Some o => setAgentOutputs o s
                 | None => s
                 end)
    |> (fun s => match ChatResponse.handoffs data with
                 | Some h => setHandoffs h s
                 | None => s
                 end)
    |> storeEvaluation data
    |> setConfidence (Some (builtConfidence data))
    |> setSession (Some {| SessionRecord.session_id := ChatResponse.session_id data;
                           SessionRecord.ended_at := Some now;
                           SessionRecord.constraints_status := None |})
    |> setStreamStatus "Complete".

(** The rest of [runFlowFromQuestion], run when the request settles at
    time [now]: the [try] body, its [catch], and the [finally]. *)
Definition askSettle (now : string) (o : chatOutcome) (s : State) : State :=
  let s1 :=
    match o with
    | Answered true data => showAnswer now data s
    | Answered false data =>
        setStreamStatus
          ("Error: " +:+ or_str (ChatResponse.detail data) "Failed to process question") s
    | Rejected message => setStreamStatus ("Error: " +:+ message) s
    end in
  s1 |> setLoading false |> setInflight (pred (inflight s1)).

(** The [onNodeClick] callback handed to [FlowTimeline] (lines 526-531).
    [FlowTimeline] never calls it. *)
Definition onNodeClick (node : FlowNode.t) (s : State) : State :=
  setSelectedHandoff
    (List.find (fun h => match FlowNode.agent node with
                         | Some a => prop_is h "from" a
                         | None => negb (present (h !! "from"))
                         end) (handoffs s)) s.

(** *** What can happen to the page

    The user's inputs with the guards of the markup ([disabled=...]), and
    the callbacks of the environment. *)
Inductive action :=
| SelectFlow (flow : string)
| SelectMode (mode : string)
| TypeQuestion (q : string)
| ClickRunFlow
| ClickAsk
| PressEnter
| ChatSettles (now : string) (o : chatOutcome)
| StreamOpens (i : nat)
| Message (i : nat) (e : Event.t)
| StreamError (i : nat)
| CloseDrawer.

Definition step (NEXT_PUBLIC_API_URL : option string) (a : action) (s : State) : option State :=
  match a with
  | SelectFlow flow => Some (setSelectedFlow flow s)
  | SelectMode mode => Some (setSelectedMode mode s)
  | TypeQuestion q => Some (setQuestion q s)
  | ClickRunFlow =>
      if loading s then None else Some (runFlowWithStreaming NEXT_PUBLIC_API_URL s)
  | ClickAsk =>
      if loading s || blank (question s) then None else Some (askBegin s)
  | PressEnter => Some (askBegin s)
  | ChatSettles now o =>
      match inflight s with
      | O => None
      | S _ => Some (askSettle now o s)
      end
  | StreamOpens i => if isOpen i s then Some (onopen s) else None
  | Message i e => if isOpen i s then Some (handle i e s) else None
  | StreamError i => if isOpen i s then Some (onerror i s) else None
  | CloseDrawer => Some (setSelectedHandoff None s)
  end.

Fixpoint run (env : option string) (acts : list action) (s : State) : option State :=
  match acts with
  | [] => Some s
  | a :: rest =>
      match step env a s with
      | Some s' => run env rest s'
      | None => None
      end
  end.

Definition reachable (env : option string) (s : State) : Prop :=
  exists acts, run env acts initial = Some s.

(** The session state a new run starts from: the node map, current node,
    confidence, agent outputs, handoffs, evaluation, constraint status and
    session record are empty. *)
Definition cleared (s : State) : Prop :=
  session s = None /\ nodes s = ∅ /\ currentNode s = None /\ confidence s = None /\
  agentOutputs s = ∅ /\ handoffs s = [] /\ evaluation s = None /\
  constraintsStatus s = ∅.

(** At most one connection is open, the one [eventSourceRef] points to. *)
Definition singleConnection (s : State) : Prop :=
  (forall j, eventSourceRef s = Some j -> j < length (sources s)) /\
  (forall j, isOpen j s = true -> eventSourceRef s = Some j).

(** A possibly-missing string in a boolean position: missing is falsy. *)
Definition show_or_empty (x : option string) : string := default "" x.

(** *** What the page shows

    The conditions of the markup under which each block is rendered. *)

(** [agentOutputs['CEO']?.kpis || []]: the cards under "Key Metrics". *)
Definition ceoKpis (s : State) : list KPI.t :=
  default [] (AgentOutput.kpis <$> agentOutputs s !! "CEO").

(** [Object.keys(constraintsStatus).length > 0 && <ConstraintsPanel
    constraints={{}} status={constraintsStatus} />] *)
Definition constraintsSection `{NumberFormat} (s : State) : option (list ConstraintsPanel.tile) :=
  if bool_decide (constraintsStatus s = ∅) then None
  else ConstraintsPanel.render ∅ (constraintsStatus s).

(** [Object.keys(nodes).length > 0] *)
Definition showsTimeline (s : State) : bool := negb (bool_decide (nodes s = ∅)).

(** [session?.session_id]: the export buttons. *)
Definition showsExport (s : State) : bool :=
  match session s with
  | Some r => negb (String.eqb (show_or_empty (SessionRecord.session_id r)) "")
  | None => false
  end.

(** [selectedHandoff && <HandoffDrawer ... />] *)
Definition showsDrawer (s : State) : bool := present (selectedHandoff s).

(** The three places that render [streamStatus]: the label of the Ask
    button, [loading ? streamStatus : 'Ask'] (line 359); the label of the
    Run Flow button, [loading ? streamStatus : 'Run Flow'] (line 400); and
    the header of the timeline block, [loading && <span>{streamStatus}
    </span>], inside [Object.keys(nodes).length > 0 && ...] (lines
    512-518). *)
Definition askLabel (s : State) : string :=
  if loading s then streamStatus s else "Ask".

Definition runLabel (s : State) : string :=
  if loading s then streamStatus s else "Run Flow".

Definition timelineStatus (s : State) : option string :=
  if showsTimeline s && loading s then Some (streamStatus s) else None.

(** The agent an event is about, for the events that name one. *)
Definition agentOf (e : Event.t) : option string :=
  match e with
  | Event.agent_start a _ | Event.agent_complete a _ _ _ | Event.agent_error a _ => Some a
  | _ => None
  end.

Definition isSessionStart (e : Event.t) : bool :=
  match e with Event.session_start _ _ => true | _ => false end.

Definition isSessionComplete (e : Event.t) : bool :=
  match e with Event.session_complete _ _ _ => true | _ => false end.

(** The callbacks that call [setLoading(false)]: the [session_complete]
    listener, [onerror] and the [finally] of [runFlowFromQuestion]. *)
Definition endsLoading (a : action) : bool :=
  match a with
  | ChatSettles _ _ | StreamError _ => true
  | Message _ e => isSessionComplete e
  | _ => false
  end.

(** The payloads of the [handoff] events of a stream, in order. *)
Definition handoffPayloads (es : list Event.t) : list Handoff :=
  omap (fun e => match e with Event.handoff data => Some data | _ => None end) es.

(** How often the character [c] occurs in [str]. *)
Fixpoint occurrences (c : ascii) (str : string) : nat :=
  match str with
  | EmptyString => 0
  | String x rest => (if Ascii.eqb x c then 1 else 0) + occurrences c rest
  end.

(** The four statuses the page writes, and the shape of a node entry: its
    [agent] property, when present, is the key it is stored under. *)
Definition knownStatus (status : string) : Prop :=
  status = "pending" \/ status = "active" \/ status = "completed" \/ status = "failed".

Definition nodesWellFormed (s : State) : Prop :=
  forall k node, nodes s !! k = Some node ->
    knownStatus (FlowNode.status node) /\
    (FlowNode.agent node = None \/ FlowNode.agent node = Some k).

End Page.

(** ** The node-status history a consumer rebuilds from a stream *)
Module History.

Definition statusOf (n : string) (s : Page.State) : option string :=
  FlowNode.status <$> Page.nodes s !! n.

(** The status of node [n] after each message of [es], delivered in order
    on connection [i] starting from state [s]. *)
Fixpoint history (i : nat) (n : string) (es : list Event.t) (s : Page.State)
  : list (option string) :=
  match es with
  | [] => []
  | e :: rest =>
      let s' := Page.deliver i e s in
      statusOf n s' :: history i n rest s'
  end.

Definition same (a b : option string) : bool :=
  match a, b with
  | Some x, Some y => String.eqb x y
  | None, None => true
  | _, _ => false
  end.

(** The transitions of a NodeState: pending to active, active to completed
    or failed, and no other. *)
Definition legal (a b : option string) : bool :=
  match a, b with
  | Some x, Some y =>
      (String.eqb x "pending" && String.eqb y "active")
      || (String.eqb x "active" && (String.eqb y "completed" || String.eqb y "failed"))
  | _, _ => false
  end.

(** Every change of status along [h] is a legal transition. *)
Fixpoint monotonic (h : list (option string)) : bool :=
  match h with
  | a :: (b :: _) as rest => (same a b || legal a b) && monotonic rest
  | _ => true
  end.

(** Where a node stands in its life cycle. *)
Inductive phase := Waiting | Started | Finished.

(** The messages about node [n] in [es] come in causal order from phase
    [p] on: at most one [agent_start], then at most one of
    [agent_complete] and [agent_error]; and the session is not restarted. *)
Fixpoint ordered_from (n : string) (p : phase) (es : list Event.t) : bool :=
  match es with
  | [] => true
  | Event.session_start _ _ :: _ => false
  | Event.agent_start a _ :: rest =>
      if String.eqb a n
      then match p with Waiting => ordered_from n Started rest | _ => false end
      else ordered_from n p rest
  | Event.agent_complete a _ _ _ :: rest
  | Event.agent_error a _ :: rest =>
      if String.eqb a n
      then match p with Started => ordered_from n Finished rest | _ => false end
      else ordered_from n p rest
  | _ :: rest => ordered_from n p rest
  end.

(** The status a node has in each phase. *)
Definition in_phase (p : phase) (st : option string) : Prop :=
  match p with
  | Waiting => st = Some "pending"
  | Started => st = Some "active"
  | Finished => st = Some "completed" \/ st = Some "failed"
  end.

End History.

(** ** The parts of the system that lie behind the event stream

    The ConfidenceGate and the Evaluator run on the server; the front end
    only receives their results. *)
Module Spec.

(** Modelled from the spec: the ConfidenceGate's banding of the 0-100
    score (section 4.2: "High 80-100, Medium 60-79, Low 40-59, Critical
    0-39"); the gate itself is not part of the front end. *)
Definition confidenceLevel (score : Q) : string :=
  if Qle_bool 80 score then "High"
  else if Qle_bool 60 score then "Medium"
  else if Qle_bool 40 score then "Low"
  else "Critical".

(** Modelled from the spec: "can_proceed is true only for High/Medium"
    (section 4.2). *)
Definition canProceed (level : string) : bool :=
  String.eqb level "High" || String.eqb level "Medium".

(** Modelled from the spec: the ConfidenceReport the gate computes from a
    score (section 3). *)
Definition confidenceReport (score : Q) (summary : string) (blocking_issues : list string)
  : ConfidenceReport.t :=
  {| ConfidenceReport.level := confidenceLevel score;
     ConfidenceReport.score := score;
     ConfidenceReport.can_proceed := canProceed (confidenceLevel score);
     ConfidenceReport.summary := summary;
     ConfidenceReport.blocking_issues := blocking_issues |}.

(** Modelled from the spec: the Evaluator's risk banding (section 4.7:
    ">=8.0 Low, 6.0-7.9 Medium, 4.0-5.9 High, <4.0 Critical"); the
    Evaluator is not part of the front end. *)
Definition riskLevel (overall_score : Q) : string :=
  if Qle_bool 8 overall_score then "Low"
  else if Qle_bool 6 overall_score then "Medium"
  else if Qle_bool 4 overall_score then "High"
  else "Critical".

(** Modelled from the spec: the five evaluation dimensions and their
    weights (section 4.7). *)
Definition dimensions : list (string * Q) := [
  ("Profitability Safety", 0.30%Q);
  ("Growth Impact", 0.25%Q);
  ("Inventory Health", 0.20%Q);
  ("Operational Risk", 0.15%Q);
  ("Data Confidence", 0.10%Q)
].

(** Modelled from the spec: a DimensionScore of the Evaluator,
    "weighted_score = score x weight" (section 3). *)
Definition dimensionScore (raw : string -> Q) (d : string * Q) : DimensionScore.t :=
  {| DimensionScore.dimension := d.1; DimensionScore.score := raw d.1;
     DimensionScore.weight := d.2; DimensionScore.weighted_score := raw d.1 * d.2;
     DimensionScore.factors := []; DimensionScore.warnings := [] |}.

(** Modelled from the spec: the fields of a [handoff] event payload
    (section 6). *)
Definition handoffFields : list string :=
  ["from"; "to"; "reason"; "flags"; "signals"; "kpi_summary"; "focus_areas";
   "evidence"; "timestamp"].

(** The display string of a KPI, case by case: ['$'] and the localised
    value for the unit ['$'], the plain value and ['%'] for the unit
    ['%'], otherwise the localised value, a space and the unit. *)
Definition displayString `{NumberFormat} (kpi : KPI.t) : string :=
  if decide (KPI.unit kpi = "$") then "$" +:+ toLocaleString (KPI.value kpi)
  else if decide (KPI.unit kpi = "%") then toString (KPI.value kpi) +:+ "%"
  else toLocaleString (KPI.value kpi) +:+ " " +:+ KPI.unit kpi.

(** The three trend values of a KPI and the indicator each stands for. *)
Inductive indicator := Upward | Downward | Neutral.

Definition trendIndicator (trend : string) : option indicator :=
  if String.eqb trend "UP" then Some Upward
  else if String.eqb trend "DOWN" then Some Downward
  else if String.eqb trend "FLAT" then Some Neutral
  else None.

End Spec.

(** How the two renderings show a direction. *)
Definition indicatorOfIcon (i : KPICard.icon) : Spec.indicator :=
  match i with
  | KPICard.TrendingUp => Spec.Upward
  | KPICard.TrendingDown => Spec.Downward
  | KPICard.Minus => Spec.Neutral
  end.

Definition indicatorOfArrow (arrow : string) : option Spec.indicator :=
  if String.eqb arrow "↑" then Some Spec.Upward
  else if String.eqb arrow "↓" then Some Spec.Downward
  else if String.eqb arrow "→" then Some Spec.Neutral
  else None.

Definition sum_weights (ds : list DimensionScore.t) : Q :=
  foldr Qplus 0%Q (DimensionScore.weight <$> ds).

(** ** Sample data *)
Module Sample.

Definition handoff : Handoff :=
  list_to_map [
    ("from", JStr "CEO"); ("to", JStr "CFO");
    ("reason", JStr "Margin below plan");
    ("flags", JArr [JStr "MARGIN_PRESSURE"]);
    ("signals", JArr []); ("kpi_summary", JArr []);
    ("focus_areas", JArr []); ("evidence", JArr []);
    ("timestamp", JStr "2026-01-30T10:00:00Z")
  ].

Definition revenue (trend : string) : KPI.t :=
  {| KPI.name := "Revenue"; KPI.value := 1250000; KPI.unit := "$";
     KPI.trend := Some trend; KPI.window := None; KPI.definition := None;
     KPI.source_view := None; KPI.confidence := None |}.

(** A chat answer without an [evaluation]: score 9 of 10, confidence
    level [level]. *)
Definition answer (level : string) : ChatResponse.t :=
  {| ChatResponse.detail := None;
     ChatResponse.flow_used := "kpi_review";
     ChatResponse.flow_reasoning := "General performance question";
     ChatResponse.message := Some "Revenue is on plan.";
     ChatResponse.key_findings := Some ["Revenue up 4%"];
     ChatResponse.recommendations := Some ["Hold prices"];
     ChatResponse.risks := None;
     ChatResponse.confidence_level := Some level;
     ChatResponse.next_steps := None;
     ChatResponse.agents_involved := Some ["CEO"; "CFO"];
     ChatResponse.agent_outputs := None;
     ChatResponse.handoffs := None;
     ChatResponse.evaluation := None;
     ChatResponse.overall_score := Some 9%Q;
     ChatResponse.confidence := Some 0.9%Q;
     ChatResponse.session_id := Some "q-1" |}.

(** A number format for the examples: an integer in decimal digits, any
    other rational as numerator/denominator, and no digit grouping. *)
Definition showQ (q : Q) : string :=
  let n := NilEmpty.string_of_int (Z.to_int (Qnum q)) in
  if Pos.eqb (Qden q) 1 then n
  else n +:+ "/" +:+ NilEmpty.string_of_int (Z.to_int (Zpos (Qden q))).

Definition plain : NumberFormat := {| toLocaleString := showQ; toString := showQ |}.

Definition marginFloor : Constraint.t :=
  {| Constraint.name := "Margin Floor"; Constraint.operator := ">=";
     Constraint.val := Constraint.Num 18; Constraint.unit := Some "%" |}.

Definition inventoryDays : Constraint.t :=
  {| Constraint.name := "Inventory Days"; Constraint.operator := "range";
     Constraint.val := Constraint.Arr [30; 90]%Q; Constraint.unit := None |}.

(** Ask a question and receive [answer level]. *)
Definition ask (level : string) : list Page.action := [
  Page.TypeQuestion "How are we doing?";
  Page.ClickAsk;
  Page.ChatSettles "2026-01-30T10:00:00Z" (Page.Answered true (answer level))
].

(** The events of a one-node session in which the node is started again
    after it completed. *)
Definition restarted : list Event.t := [
  Event.session_start "s-1" ["CEO"];
  Event.agent_start "CEO" (Some "10:00");
  Event.agent_complete "CEO" (Some "10:01") None None;
  Event.agent_start "CEO" (Some "10:02")
].

(** The events of a two-node session in causal order. *)
Definition orderly : list Event.t := [
  Event.agent_start "CEO" (Some "10:00");
  Event.agent_start "CFO" (Some "10:00");
  Event.agent_error "CFO" "timeout";
  Event.agent_complete "CEO" (Some "10:01") None (Some ["ok"]);
  Event.session_complete (Some "s-1") (Some "10:02") None
].

(** The page right after "Run Flow" was clicked on a fresh page. *)
Definition streaming : Page.State := Page.runFlowWithStreaming None Page.initial.


(** The page after [run_with_handoff]. *)
Definition handed_off : Page.State := Page.deliver 0 (Event.handoff handoff) streaming.

(** Click "Run Flow"; while the stream runs, the user types a question and
    presses Enter, and the stream reports an agent. *)
Definition busy : list Page.action := [
  Page.Message 0 (Event.session_start "s-1" ["CEO"; "CFO"]);
  Page.TypeQuestion "Why are sales declining?";
  Page.PressEnter;
  Page.SelectMode "audit";
  Page.Message 0 (Event.agent_start "CEO" (Some "10:00"))
].

(** Ask a question, get the answer, then click "Run Flow". *)
Definition ask_then_run : list Page.action := [
  Page.TypeQuestion "How are we doing?";
  Page.ClickAsk;
  Page.ChatSettles "2026-01-30T10:00:00Z" (Page.Answered true (answer "High"));
  Page.ClickRunFlow
].

(** Click "Run Flow", then ask a question with the Enter key while the
    stream is running; the stream then reports an agent. *)
Definition run_then_ask : list Page.action := [
  Page.ClickRunFlow;
  Page.Message 0 (Event.session_start "s-1" ["CEO"; "CFO"]);
  Page.TypeQuestion "Why are sales declining?";
  Page.PressEnter;
  Page.Message 0 (Event.agent_start "CEO" (Some "10:00"))
].

End Sample.

(** * Properties *)

(** ** KPI display *)

(** C9: the two KPI value formatters, [formatValue] of the KPI card and
    [formatKPIValue] of the flow timeline, compute the same display string
    for every KPI, and that string is the one described case by case:
    ['$'] and the localised value for the unit ['$'], the plain value and
    ['%'] for the unit ['%'], otherwise the localised value, a space and
    the unit. *)
Theorem formatters_agree `{NumberFormat} (kpi : KPI.t) :
  KPICard.formatValue kpi = FlowTimeline.formatKPIValue kpi /\
  KPICard.formatValue kpi = Spec.displayString kpi /\
  FlowTimeline.formatKPIValue kpi = Spec.displayString kpi.
Proof.
  unfold KPICard.formatValue, FlowTimeline.formatKPIValue, Spec.displayString.
  destruct (String.eqb_spec (KPI.unit kpi) "$") as [Hd | Hd];
    destruct (String.eqb_spec (KPI.unit kpi) "%") as [Hp | Hp];
    repeat case_decide; try congruence; auto.
Qed.

Lemma card_trend_indicator (kpi : KPI.t) (t : string) (ind : Spec.indicator) :
  KPI.trend kpi = Some t ->
  Spec.trendIndicator t = Some ind ->
  indicatorOfIcon (KPICard.getTrendIcon kpi).1 = ind.
Proof.
  intros Ht Hind. unfold KPICard.getTrendIcon, Spec.trendIndicator in *.
  rewrite Ht. simpl.
  destruct (String.eqb_spec t "UP") as [-> | Hup]; [simpl; congruence |].
  destruct (String.eqb_spec t "DOWN") as [-> | Hdown]; [simpl; congruence |].
  destruct (String.eqb_spec t "FLAT") as [-> | Hflat]; [simpl; congruence |].
  discriminate.
Qed.

Lemma timeline_trend_lowercase (kpi : KPI.t) (t : string) :
  KPI.trend kpi = Some t ->
  t <> "" -> t <> "up" -> t <> "down" ->
  FlowTimeline.trendSpan kpi =
    Some {| FlowTimeline.className := "text-xs text-gray-500";
            FlowTimeline.arrow := "→"; FlowTimeline.label := t |}.
Proof.
  intros Ht He Hu Hd. unfold FlowTimeline.trendSpan. rewrite Ht.
  destruct (String.eqb_spec t "") as [? | _]; [done |].
  destruct (String.eqb_spec t "up") as [? | _]; [done |].
  destruct (String.eqb_spec t "down") as [? | _]; [done |].
  reflexivity.
Qed.

(** C8: for a KPI whose trend is [UP], [DOWN] or [FLAT], the KPI card shows
    the upward, downward and neutral icon respectively, whereas the metric
    tile of the flow timeline, which tests for ['up'] and ['down'] in lower
    case, shows the neutral arrow in grey for all three. *)
Theorem timeline_tile_trend_is_neutral
    (name unit : string) (value : Q) (window definition source_view confidence : option string) :
  let kpi t := KPI.mk name value unit (Some t) window definition source_view confidence in
  let card t := indicatorOfIcon (KPICard.getTrendIcon (kpi t)).1 in
  let tile t := FlowTimeline.trendSpan (kpi t) ≫= (fun sp => indicatorOfArrow (FlowTimeline.arrow sp)) in
  (card "UP" = Spec.Upward /\ card "DOWN" = Spec.Downward /\ card "FLAT" = Spec.Neutral) /\
  (tile "UP" = Some Spec.Neutral /\ tile "DOWN" = Some Spec.Neutral /\ tile "FLAT" = Some Spec.Neutral) /\
  (FlowTimeline.className <$> FlowTimeline.trendSpan (kpi "UP")) = Some "text-xs text-gray-500".
Proof. repeat split; reflexivity. Qed.

(** ** Handoff records *)

Lemma drawer_ignores_from_and_to `{NumberFormat} (h : Handoff) :
  dom h = list_to_set Spec.handoffFields ->
  HandoffDrawer.flowRow h = ("", "").
Proof.
  intros Hdom. unfold HandoffDrawer.flowRow.
  assert (Hnone : forall k, k ∉ Spec.handoffFields -> h !! k = None).
  { intros k Hk. apply not_elem_of_dom. rewrite Hdom. set_solver. }
  rewrite !Hnone; [reflexivity | |]; unfold Spec.handoffFields;
    intros Hin; apply list_elem_of_In in Hin; simpl in Hin;
    intuition discriminate.
Qed.



(** ** The flow catalogue *)

(** C6: the catalogue offers exactly four flows: a sequential chain of the
    five stages CEO, CFO, CMO, CIO, Evaluator; the parallel group of CFO
    and CMO converging into Evaluator; the sequential chain CFO, CMO,
    Evaluator; and the sequential chain CIO, CFO, CMO, Evaluator. *)
Theorem four_built_in_flows :
  FlowSelector.id <$> FlowSelector.FLOWS = ["kpi_review"; "trade_off"; "scenario"; "root_cause"] /\
  (FlowShape.parse_flow ∘ FlowSelector.description) <$> FlowSelector.FLOWS =
    [ [FlowShape.Stage "CEO"; FlowShape.Stage "CFO"; FlowShape.Stage "CMO";
       FlowShape.Stage "CIO"; FlowShape.Stage "Evaluator"];
      [FlowShape.Parallel ["CFO"; "CMO"]; FlowShape.Stage "Evaluator"];
      [FlowShape.Stage "CFO"; FlowShape.Stage "CMO"; FlowShape.Stage "Evaluator"];
      [FlowShape.Stage "CIO"; FlowShape.Stage "CFO"; FlowShape.Stage "CMO";
       FlowShape.Stage "Evaluator"] ] /\
  (FlowShape.is_chain ∘ FlowShape.parse_flow ∘ FlowSelector.description) <$> FlowSelector.FLOWS =
    [true; false; true; true] /\
  (length ∘ FlowShape.parse_flow ∘ FlowSelector.description) <$> FlowSelector.FLOWS =
    [5; 2; 3; 4] /\
  (FlowShape.join_node ∘ FlowShape.parse_flow ∘ FlowSelector.description) <$> FlowSelector.FLOWS =
    [Some "Evaluator"; Some "Evaluator"; Some "Evaluator"; Some "Evaluator"] /\
  Forall (fun f => NoDup (FlowShape.stages (FlowShape.parse_flow (FlowSelector.description f))))
    FlowSelector.FLOWS.
Proof.
  repeat split; try reflexivity.
  apply (bool_decide_unpack _). vm_compute. exact I.
Qed.

(** ** Confidence reports *)

Lemma Qle_bool_false (a b : Q) : Qle_bool a b = false <-> (b < a)%Q.
Proof.
  split.
  - intros H. apply Qnot_le_lt. intros Hle. apply Qle_bool_iff in Hle. congruence.
  - intros H. destruct (Qle_bool a b) eqn:E; [| reflexivity].
    apply Qle_bool_iff in E. exfalso. apply (Qlt_not_le _ _ H E).
Qed.

Lemma confidenceLevel_of_Z (n : Z) :
  Spec.confidenceLevel (inject_Z n) =
    if (80 <=? n)%Z then "High"
    else if (60 <=? n)%Z then "Medium"
    else if (40 <=? n)%Z then "Low"
    else "Critical".
Proof.
  unfold Spec.confidenceLevel, Qle_bool. simpl. rewrite !Z.mul_1_r. reflexivity.
Qed.

(** The report the ConfidenceGate computes from a score between 0 and 100:
    its level is High for 80-100, Medium for 60-79, Low for 40-59 and
    Critical for 0-39, so that 79 gives Medium, 80 High, 59 Low, 60 Medium,
    39 Critical and 40 Low; its [can_proceed] is true exactly when the
    level is High or Medium, which is also when the badge shows "Ready to
    proceed" and not the red shield. *)
Lemma confidence_banding (n : Z) (summary : string) (blocking_issues : list string) :
  (0 <= n <= 100)%Z ->
  let r := Spec.confidenceReport (inject_Z n) summary blocking_issues in
  (ConfidenceReport.level r = "High" <-> (80 <= n <= 100)%Z) /\
  (ConfidenceReport.level r = "Medium" <-> (60 <= n <= 79)%Z) /\
  (ConfidenceReport.level r = "Low" <-> (40 <= n <= 59)%Z) /\
  (ConfidenceReport.level r = "Critical" <-> (0 <= n <= 39)%Z) /\
  (ConfidenceReport.can_proceed r = true <->
     ConfidenceReport.level r = "High" \/ ConfidenceReport.level r = "Medium") /\
  (Spec.confidenceLevel ∘ inject_Z) <$> [79; 80; 59; 60; 39; 40]%Z =
     ["Medium"; "High"; "Low"; "Medium"; "Critical"; "Low"] /\
  (ConfidenceBadge.proceedText (Confidence.of_report r) = "Ready to proceed" <->
     ConfidenceReport.can_proceed r = true) /\
  (ConfidenceBadge.getIcon (Confidence.of_report r) <> ConfidenceBadge.ShieldX <->
     ConfidenceReport.can_proceed r = true).
Proof.
  intros Hn r. subst r. unfold Spec.confidenceReport. simpl.
  rewrite confidenceLevel_of_Z.
  unfold ConfidenceBadge.proceedText, ConfidenceBadge.getIcon. simpl.
  destruct (Z.leb_spec 80 n); [| destruct (Z.leb_spec 60 n); [| destruct (Z.leb_spec 40 n)]];
    simpl; repeat split; intros; try reflexivity; try lia; try discriminate;
    try tauto; try intuition discriminate.
Qed.

Lemma confidence_banding_witness :
  (0 <= 79 <= 100)%Z /\
  ConfidenceReport.level (Spec.confidenceReport (inject_Z 79) "fresh" []) = "Medium" /\
  ConfidenceReport.can_proceed (Spec.confidenceReport (inject_Z 79) "fresh" []) = true.
Proof.
  assert (H : (0 <= 79 <= 100)%Z) by lia.
  split; [exact H |].
  destruct (confidence_banding 79 "fresh" [] H) as (_ & Hmed & _ & _ & Hcp & _).
  split.
  - apply Hmed. lia.
  - apply Hcp. right. apply Hmed. lia.
Defined.

Lemma stored_confidence (now : string) (data : ChatResponse.t) (s : Page.State) :
  Page.confidence (Page.askSettle now (Page.Answered true data) s) =
    Some (Page.builtConfidence data).
Proof. reflexivity. Qed.

Lemma confidenceLevel_below_40 (score : Q) :
  (score < 40)%Q -> Spec.confidenceLevel score = "Critical".
Proof.
  intros Hs. unfold Spec.confidenceLevel.
  rewrite !(proj2 (Qle_bool_false _ _)); [reflexivity | lra ..].
Qed.

(** C5: the confidence object the page builds from a chat answer is not
    banded.  Its level is the answer's [confidence_level] (or "Medium") and
    its score the answer's [confidence] (or 0.8), each taken on its own: a
    score under 40, whose band is Critical, comes with whatever level the
    answer names.  It has no [can_proceed]: for the levels High and Medium,
    for which [can_proceed] is to be true, the badge reads "Issues
    detected".  An answer that carries neither field gives the level Medium
    with the score 0.8, whose band is Critical, or High were the score read
    as a fraction of 100. *)
Theorem question_confidence_is_not_banded
    (now : string) (data : ChatResponse.t) (s : Page.State) :
  let level := or_str (ChatResponse.confidence_level data) "Medium" in
  let score := or_num (ChatResponse.confidence data) 0.8 in
  exists c,
    Page.confidence (Page.askSettle now (Page.Answered true data) s) = Some c /\
    Confidence.level c = Some level /\
    Confidence.score c = Some score /\
    Confidence.can_proceed c = None /\
    ((score < 40)%Q -> level <> "Critical" -> level <> Spec.confidenceLevel score) /\
    (Spec.canProceed level = true ->
       Confidence.can_proceed c <> Some (Spec.canProceed level) /\
       ConfidenceBadge.proceedText c = "Issues detected") /\
    (ChatResponse.confidence_level data = None -> ChatResponse.confidence data = None ->
       level = "Medium" /\ score = 0.8%Q /\
       Spec.confidenceLevel score = "Critical" /\
       Spec.confidenceLevel (score * 100) = "High" /\
       Spec.canProceed level = true).
Proof.
  intros level score. exists (Page.builtConfidence data). rewrite stored_confidence.
  split; [reflexivity |]. split; [reflexivity |]. split; [reflexivity |].
  split; [reflexivity |]. split; [| split].
  - intros Hs Hl He. apply Hl. rewrite He. apply confidenceLevel_below_40, Hs.
  - intros _. split; [discriminate | reflexivity].
  - intros Hl Hc. subst level score. rewrite Hl, Hc. repeat split; reflexivity.
Qed.

Lemma question_confidence_is_not_banded_witness :
  exists c,
    Page.confidence
      (Page.askSettle "now" (Page.Answered true (Sample.answer "High")) Page.initial) = Some c /\
    Confidence.level c = Some "High" /\
    Confidence.score c = Some (or_num (Some 0.9%Q) 0.8) /\
    "High" <> Spec.confidenceLevel (or_num (Some 0.9%Q) 0.8) /\
    ConfidenceBadge.proceedText c = "Issues detected".
Proof.
  pose proof (question_confidence_is_not_banded "now" (Sample.answer "High") Page.initial) as H.
  cbv zeta in H. destruct H as (c & Hc & Hl & Hs & _ & Hband & Hcp & _).
  exists c. split; [exact Hc |]. split; [exact Hl |]. split; [exact Hs |]. split.
  - apply Hband; [reflexivity | discriminate].
  - apply Hcp. reflexivity.
Defined.

(** C7: the confidence object the page stores on the question path has a
    level and a score only: [can_proceed], [summary] and [blocking_issues]
    are missing, so it is no ConfidenceReport, and the badge reads "Issues
    detected" for it whatever the level, also for High. *)
Theorem question_confidence_is_partial (now : string) (data : ChatResponse.t) (s : Page.State) :
  exists c,
    Page.confidence (Page.askSettle now (Page.Answered true data) s) = Some c /\
    Confidence.level c = Some (or_str (ChatResponse.confidence_level data) "Medium") /\
    Confidence.score c = Some (or_num (ChatResponse.confidence data) 0.8) /\
    Confidence.can_proceed c = None /\
    Confidence.summary c = None /\
    Confidence.blocking_issues c = None /\
    (forall r, Confidence.of_report r <> c) /\
    ConfidenceBadge.proceedText c = "Issues detected" /\
    (ChatResponse.confidence_level data = Some "High" ->
     ConfidenceBadge.getIcon c = ConfidenceBadge.ShieldCheck).
Proof.
  exists (Page.builtConfidence data). rewrite stored_confidence.
  repeat split; try reflexivity.
  - intros r Hr. discriminate Hr.
  - intros Hl. unfold ConfidenceBadge.getIcon, Page.builtConfidence. simpl.
    rewrite Hl. reflexivity.
Qed.

Lemma question_confidence_is_partial_witness :
  exists c,
    Page.confidence
      (Page.askSettle "now" (Page.Answered true (Sample.answer "High")) Page.initial) = Some c /\
    Confidence.level c = Some "High" /\
    Confidence.can_proceed c = None /\
    ConfidenceBadge.getIcon c = ConfidenceBadge.ShieldCheck /\
    ConfidenceBadge.proceedText c = "Issues detected".
Proof.
  destruct (question_confidence_is_partial "now" (Sample.answer "High") Page.initial)
    as (c & Hc & Hl & _ & Hcp & _ & _ & _ & Htxt & Hicon).
  exists c. repeat split; auto.
Defined.

(** ** Evaluations *)

Lemma stored_evaluation (now : string) (data : ChatResponse.t) (os : Q) (s : Page.State) :
  ChatResponse.evaluation data = None ->
  ChatResponse.overall_score data = Some os ->
  Page.evaluation (Page.askSettle now (Page.Answered true data) s) =
    Some (Page.buildEvaluation data os).
Proof.
  intros He Hos. unfold Page.askSettle, Page.showAnswer, Page.storeEvaluation.
  rewrite He, Hos. reflexivity.
Qed.

Lemma riskFromConfidence_cases (cl : option string) :
  (Page.riskFromConfidence cl = "Low" <-> cl = Some "High") /\
  (Page.riskFromConfidence cl = "High" <-> cl = Some "Low") /\
  (Page.riskFromConfidence cl = "Medium" <-> cl <> Some "High" /\ cl <> Some "Low").
Proof.
  unfold Page.riskFromConfidence, is_str. destruct cl as [l |].
  - destruct (String.eqb_spec l "High") as [-> | Hh]; simpl.
    { repeat split; intros; try discriminate; try tauto; intuition congruence. }
    destruct (String.eqb_spec l "Low") as [-> | Hl]; simpl.
    { repeat split; intros; try discriminate; try tauto; intuition congruence. }
    repeat split; intros; try discriminate; try congruence.
  - repeat split; intros; try discriminate; try tauto.
Qed.

Lemma riskLevel_bands (score : Q) :
  (Spec.riskLevel score = "Low" <-> (8 <= score)%Q) /\
  (Spec.riskLevel score = "Medium" <-> (6 <= score)%Q /\ (score < 8)%Q) /\
  (Spec.riskLevel score = "High" <-> (4 <= score)%Q /\ (score < 6)%Q) /\
  (Spec.riskLevel score = "Critical" <-> (score < 4)%Q).
Proof.
  unfold Spec.riskLevel.
  destruct (Qle_bool 8 score) eqn:H8;
    [apply Qle_bool_iff in H8 | apply Qle_bool_false in H8;
     destruct (Qle_bool 6 score) eqn:H6;
       [apply Qle_bool_iff in H6 | apply Qle_bool_false in H6;
        destruct (Qle_bool 4 score) eqn:H4;
          [apply Qle_bool_iff in H4 | apply Qle_bool_false in H4]]];
    intuition (try discriminate; try reflexivity; try lra).
Qed.

Lemma scoreColor_follows_bands (score : Q) :
  EvaluatorScore.getScoreColor score =
    if String.eqb (Spec.riskLevel score) "Low" then "text-green-600"
    else if String.eqb (Spec.riskLevel score) "Medium" then "text-yellow-600"
    else if String.eqb (Spec.riskLevel score) "High" then "text-orange-600"
    else "text-red-600".
Proof.
  unfold EvaluatorScore.getScoreColor, Spec.riskLevel.
  destruct (Qle_bool 8 score); [reflexivity |].
  destruct (Qle_bool 6 score); [reflexivity |].
  destruct (Qle_bool 4 score); reflexivity.
Qed.

(** C2, as stated, fails: the Evaluation the page reconstructs from a chat
    answer with overall score 9 and confidence level Low has risk level
    High, where the banding of 9 is Low; and with the same score and
    confidence level High its risk level is Low, so the risk level is not
    determined by the score. *)
Lemma reconstructed_risk_not_banded :
  let low := Page.buildEvaluation (Sample.answer "Low") 9 in
  let high := Page.buildEvaluation (Sample.answer "High") 9 in
  (Page.run None (Sample.ask "Low") Page.initial ≫= Page.evaluation) = Some low /\
  (Page.run None (Sample.ask "High") Page.initial ≫= Page.evaluation) = Some high /\
  Evaluation.overall_score low = Evaluation.overall_score high /\
  Evaluation.risk_level low = "High" /\
  Evaluation.risk_level high = "Low" /\
  Spec.riskLevel (Evaluation.overall_score low) = "Low" /\
  Evaluation.risk_level low <> Spec.riskLevel (Evaluation.overall_score low).
Proof. repeat split; try (vm_compute; reflexivity). vm_compute. discriminate. Qed.

(** C2, amended: the risk banding of the Evaluator is by score alone (Low
    from 8, Medium from 6 to below 8, High from 4 to below 6, Critical
    below 4) and the score colour of the display follows the same bands;
    the Evaluation the page reconstructs on the question path, when the
    answer carries an overall score and no evaluation, takes its risk level
    from the answer's confidence level instead: Low for High, High for Low,
    Medium otherwise, and never Critical. *)
Theorem reconstructed_risk_follows_confidence
    (now : string) (data : ChatResponse.t) (os : Q) (s : Page.State) :
  ChatResponse.evaluation data = None ->
  ChatResponse.overall_score data = Some os ->
  (exists e,
     Page.evaluation (Page.askSettle now (Page.Answered true data) s) = Some e /\
     Evaluation.overall_score e = os /\
     (Evaluation.risk_level e = "Low" <-> ChatResponse.confidence_level data = Some "High") /\
     (Evaluation.risk_level e = "High" <-> ChatResponse.confidence_level data = Some "Low") /\
     (Evaluation.risk_level e = "Medium" <->
        ChatResponse.confidence_level data <> Some "High" /\
        ChatResponse.confidence_level data <> Some "Low") /\
     Evaluation.risk_level e <> "Critical") /\
  (forall score : Q,
     (Spec.riskLevel score = "Low" <-> (8 <= score)%Q) /\
     (Spec.riskLevel score = "Medium" <-> (6 <= score)%Q /\ (score < 8)%Q) /\
     (Spec.riskLevel score = "High" <-> (4 <= score)%Q /\ (score < 6)%Q) /\
     (Spec.riskLevel score = "Critical" <-> (score < 4)%Q) /\
     (EvaluatorScore.getScoreColor score = "text-green-600" <-> Spec.riskLevel score = "Low") /\
     (EvaluatorScore.getScoreColor score = "text-yellow-600" <-> Spec.riskLevel score = "Medium") /\
     (EvaluatorScore.getScoreColor score = "text-orange-600" <-> Spec.riskLevel score = "High") /\
     (EvaluatorScore.getScoreColor score = "text-red-600" <-> Spec.riskLevel score = "Critical")).
Proof.
  intros He Hos. split.
  - exists (Page.buildEvaluation data os).
    rewrite (stored_evaluation now data os s He Hos). simpl.
    destruct (riskFromConfidence_cases (ChatResponse.confidence_level data))
      as (Hl & Hh & Hm).
    repeat split; try apply Hl; try apply Hh; try apply Hm; try tauto.
    unfold Page.riskFromConfidence.
    repeat match goal with |- context [if ?b then _ else _] => destruct b end;
      discriminate.
  - intros score.
    destruct (riskLevel_bands score) as (B1 & B2 & B3 & B4).
    do 4 (split; [assumption |]).
    rewrite scoreColor_follows_bands. unfold Spec.riskLevel.
    repeat match goal with |- context [Qle_bool ?a ?b] => destruct (Qle_bool a b) end;
      simpl; repeat split; intros; try reflexivity; discriminate.
Qed.

Lemma reconstructed_risk_follows_confidence_witness :
  ChatResponse.evaluation (Sample.answer "Low") = None /\
  ChatResponse.overall_score (Sample.answer "Low") = Some 9%Q /\
  exists e,
    Page.evaluation
      (Page.askSettle "now" (Page.Answered true (Sample.answer "Low")) Page.initial) = Some e /\
    Evaluation.risk_level e = "High".
Proof.
  split; [reflexivity |]. split; [reflexivity |].
  destruct (reconstructed_risk_follows_confidence "now" (Sample.answer "Low") 9
              Page.initial eq_refl eq_refl) as [(e & He & _ & _ & Hhigh & _) _].
  exists e. split; [exact He |]. apply Hhigh. reflexivity.
Defined.

(** C3, as stated, fails: the Evaluation the page reconstructs from a chat
    answer contains four DimensionScores, none of them one of the five
    named dimensions. *)
Lemma reconstructed_evaluation_has_four_dimensions :
  let e := Page.buildEvaluation (Sample.answer "High") 9 in
  (Page.run None (Sample.ask "High") Page.initial ≫= Page.evaluation) = Some e /\
  length (Evaluation.dimension_scores e) = 4 /\
  length (Evaluation.dimension_scores e) <> 5 /\
  DimensionScore.dimension <$> Evaluation.dimension_scores e =
    ["Strategic Alignment"; "Financial Impact"; "Market Analysis"; "Data Quality"] /\
  Forall (fun d => DimensionScore.dimension d ∉ Spec.dimensions.*1)
    (Evaluation.dimension_scores e).
Proof.
  repeat split; try (vm_compute; reflexivity).
  - vm_compute. discriminate.
  - apply (bool_decide_unpack _). vm_compute. exact I.
Qed.

(** C3, amended: the Evaluator scores five dimensions - Profitability
    Safety 0.30, Growth Impact 0.25, Inventory Health 0.20, Operational
    Risk 0.15, Data Confidence 0.10 - whose weights sum to 1; the
    Evaluation the page reconstructs on the question path has exactly four
    - Strategic Alignment 0.30, Financial Impact 0.25, Market Analysis 0.25,
    Data Quality 0.20 - whose weights also sum to 1; in both, every
    DimensionScore has weighted_score = score x weight. *)
Theorem reconstructed_dimensions
    (now : string) (data : ChatResponse.t) (os : Q) (s : Page.State) :
  ChatResponse.evaluation data = None ->
  ChatResponse.overall_score data = Some os ->
  (exists e,
     Page.evaluation (Page.askSettle now (Page.Answered true data) s) = Some e /\
     DimensionScore.dimension <$> Evaluation.dimension_scores e =
       ["Strategic Alignment"; "Financial Impact"; "Market Analysis"; "Data Quality"] /\
     DimensionScore.weight <$> Evaluation.dimension_scores e = [0.3; 0.25; 0.25; 0.2]%Q /\
     DimensionScore.score <$> Evaluation.dimension_scores e =
       [os; os * 0.9; os * 0.95; os * 0.85]%Q /\
     (sum_weights (Evaluation.dimension_scores e) == 1)%Q /\
     Forall (fun d => DimensionScore.weighted_score d =
                        (DimensionScore.score d * DimensionScore.weight d)%Q)
       (Evaluation.dimension_scores e)) /\
  (forall raw : string -> Q,
     let ds := Spec.dimensionScore raw <$> Spec.dimensions in
     length ds = 5 /\
     DimensionScore.dimension <$> ds =
       ["Profitability Safety"; "Growth Impact"; "Inventory Health";
        "Operational Risk"; "Data Confidence"] /\
     DimensionScore.weight <$> ds = [0.30; 0.25; 0.20; 0.15; 0.10]%Q /\
     (sum_weights ds == 1)%Q /\
     Forall (fun d => DimensionScore.weighted_score d =
                        (DimensionScore.score d * DimensionScore.weight d)%Q) ds).
Proof.
  intros He Hos. split.
  - exists (Page.buildEvaluation data os).
    rewrite (stored_evaluation now data os s He Hos).
    repeat split; try reflexivity.
    repeat constructor.
  - intros raw ds. subst ds. repeat split; try reflexivity.
    repeat constructor.
Qed.

Lemma reconstructed_dimensions_witness :
  ChatResponse.evaluation (Sample.answer "High") = None /\
  ChatResponse.overall_score (Sample.answer "High") = Some 9%Q /\
  exists e,
    Page.evaluation
      (Page.askSettle "now" (Page.Answered true (Sample.answer "High")) Page.initial) = Some e /\
    DimensionScore.weight <$> Evaluation.dimension_scores e = [0.3; 0.25; 0.25; 0.2]%Q.
Proof.
  split; [reflexivity |]. split; [reflexivity |].
  destruct (reconstructed_dimensions "now" (Sample.answer "High") 9
              Page.initial eq_refl eq_refl) as [(e & He & _ & Hw & _) _].
  exists e. split; [exact He | exact Hw].
Defined.

(** ** The node map rebuilt from the event stream *)

Section NodeHistory.

Variable i : nat.
Variable n : string.

Lemma nodes_handle (e : Event.t) (s : Page.State) :
  Page.nodes (Page.handle i e s) =
    match e with
    | Event.session_start _ flow_nodes => Page.initialNodes flow_nodes
    | Event.agent_start a t => <[a := Page.activeNode (Page.nodes s !! a) t]> (Page.nodes s)
    | Event.agent_complete a t _ _ =>
        <[a := Page.completedNode (Page.nodes s !! a) t]> (Page.nodes s)
    | Event.agent_error a _ => <[a := Page.failedNode (Page.nodes s !! a)]> (Page.nodes s)
    | _ => Page.nodes s
    end.
Proof.
  destruct e; try reflexivity.
  unfold Page.handle. destruct (present kpis || present insights); reflexivity.
Qed.

Lemma foldl_pending_lookup (flow : list string) (m : gmap string FlowNode.t) :
  foldl (fun m nodeName => <[nodeName := Page.pendingNode nodeName]> m) m flow !! n =
    if decide (n ∈ flow) then Some (Page.pendingNode n) else m !! n.
Proof.
  revert m. induction flow as [| x l IH]; intros m; cbn [foldl].
  - destruct (decide (n ∈ [])) as [H | H]; [inversion H | reflexivity].
  - rewrite IH. destruct (decide (n ∈ l)) as [Hl | Hl].
    + rewrite (decide_True (P := n ∈ x :: l)) by (right; exact Hl). reflexivity.
    + destruct (decide (x = n)) as [-> | Hx].
      * rewrite lookup_insert_eq. rewrite (decide_True (P := n ∈ n :: l)) by left.
        reflexivity.
      * rewrite lookup_insert_ne by exact Hx.
        rewrite (decide_False (P := n ∈ x :: l)); [reflexivity |].
        intros Hin. apply elem_of_cons in Hin as [-> | Hin]; [apply Hx; reflexivity | apply Hl, Hin].
Qed.

Lemma initialNodes_lookup (flow : list string) :
  n ∈ flow -> Page.initialNodes flow !! n = Some (Page.pendingNode n).
Proof.
  intros Hin. unfold Page.initialNodes. rewrite foldl_pending_lookup.
  rewrite decide_True by exact Hin. reflexivity.
Qed.

Lemma deliver_closed (e : Event.t) (s : Page.State) :
  Page.isOpen i s = false -> Page.deliver i e s = s.
Proof. intros H. unfold Page.deliver. rewrite H. reflexivity. Qed.

Lemma deliver_open (e : Event.t) (s : Page.State) :
  Page.isOpen i s = true -> Page.deliver i e s = Page.handle i e s.
Proof. intros H. unfold Page.deliver. rewrite H. reflexivity. Qed.

Lemma same_refl (a : option string) : History.same a a = true.
Proof. destruct a as [x |]; simpl; [apply String.eqb_refl | reflexivity]. Qed.

Lemma monotonic_cons_same (a : option string) (h : list (option string)) :
  History.monotonic (a :: h) = true -> History.monotonic (a :: a :: h) = true.
Proof.
  intros H. change (History.monotonic (a :: a :: h))
    with ((History.same a a || History.legal a a) && History.monotonic (a :: h)).
  rewrite same_refl, H. reflexivity.
Qed.

Lemma monotonic_cons_legal (a b : option string) (h : list (option string)) :
  History.legal a b = true ->
  History.monotonic (b :: h) = true -> History.monotonic (a :: b :: h) = true.
Proof.
  intros Hl H. change (History.monotonic (a :: b :: h))
    with ((History.same a b || History.legal a b) && History.monotonic (b :: h)).
  rewrite Hl, H, orb_true_r. reflexivity.
Qed.

(** Once the connection is closed the node map no longer changes. *)
Lemma history_closed (es : list Event.t) (s : Page.State) :
  Page.isOpen i s = false ->
  History.monotonic (History.statusOf n s :: History.history i n es s) = true.
Proof.
  intros Hc. induction es as [| e rest IH]; [reflexivity |].
  simpl. rewrite (deliver_closed e s Hc). apply monotonic_cons_same, IH.
Qed.

(** The status of another node's entry is not touched. *)
Lemma statusOf_insert_ne (a : string) (node : FlowNode.t) (m : gmap string FlowNode.t) :
  a <> n -> FlowNode.status <$> <[a := node]> m !! n = FlowNode.status <$> m !! n.
Proof. intros H. rewrite lookup_insert_ne by exact H. reflexivity. Qed.

Lemma ordered_history (es : list Event.t) :
  forall (s : Page.State) (p : History.phase),
    History.in_phase p (History.statusOf n s) ->
    History.ordered_from n p es = true ->
    History.monotonic (History.statusOf n s :: History.history i n es s) = true.
Proof.
  induction es as [| e rest IH]; intros s p Hp Ho; [reflexivity |].
  destruct (Page.isOpen i s) eqn:Hopen; [| apply history_closed, Hopen].
  simpl. rewrite (deliver_open e s Hopen).
  assert (Hkeep : forall q,
             Page.nodes (Page.handle i e s) !! n = Page.nodes s !! n ->
             History.ordered_from n q rest = true ->
             History.in_phase q (History.statusOf n s) ->
             History.monotonic
               (History.statusOf n s ::
                History.statusOf n (Page.handle i e s) ::
                History.history i n rest (Page.handle i e s)) = true).
  { intros q Hn Hq Hin.
    assert (Hs : History.statusOf n (Page.handle i e s) = History.statusOf n s)
      by (unfold History.statusOf; rewrite Hn; reflexivity).
    rewrite Hs. apply monotonic_cons_same. rewrite <- Hs. apply (IH _ q); [| exact Hq].
    rewrite Hs. exact Hin. }
  assert (Hmove : forall q st,
             History.statusOf n (Page.handle i e s) = Some st ->
             History.legal (History.statusOf n s) (Some st) = true ->
             History.in_phase q (Some st) ->
             History.ordered_from n q rest = true ->
             History.monotonic
               (History.statusOf n s ::
                History.statusOf n (Page.handle i e s) ::
                History.history i n rest (Page.handle i e s)) = true).
  { intros q st Hs Hl Hin Hq. rewrite Hs in *. apply monotonic_cons_legal; [exact Hl |].
    rewrite <- Hs. apply (IH _ q); [rewrite Hs; exact Hin | exact Hq]. }
  destruct e; simpl in Ho; try discriminate;
    try (apply (Hkeep p); [rewrite nodes_handle; reflexivity | exact Ho | exact Hp]).
  - (* agent_start *)
    destruct (String.eqb_spec agent n) as [-> | Hne].
    + destruct p; try discriminate. simpl in Hp.
      apply (Hmove History.Started "active"); [| | reflexivity | exact Ho].
      * unfold History.statusOf. rewrite nodes_handle, lookup_insert_eq. reflexivity.
      * rewrite Hp. reflexivity.
    + apply (Hkeep p); [| exact Ho | exact Hp].
      rewrite nodes_handle. apply lookup_insert_ne, Hne.
  - (* agent_complete *)
    destruct (String.eqb_spec agent n) as [-> | Hne].
    + destruct p; try discriminate. simpl in Hp.
      apply (Hmove History.Finished "completed"); [| | left; reflexivity | exact Ho].
      * unfold History.statusOf. rewrite nodes_handle, lookup_insert_eq. reflexivity.
      * rewrite Hp. reflexivity.
    + apply (Hkeep p); [| exact Ho | exact Hp].
      rewrite nodes_handle. apply lookup_insert_ne, Hne.
  - (* agent_error *)
    destruct (String.eqb_spec agent n) as [-> | Hne].
    + destruct p; try discriminate. simpl in Hp.
      apply (Hmove History.Finished "failed"); [| | right; reflexivity | exact Ho].
      * unfold History.statusOf. rewrite nodes_handle, lookup_insert_eq. reflexivity.
      * rewrite Hp. reflexivity.
    + apply (Hkeep p); [| exact Ho | exact Hp].
      rewrite nodes_handle. apply lookup_insert_ne, Hne.
Qed.

End NodeHistory.

(** C1, as stated, fails: from the events session_start, agent_start CEO,
    agent_complete CEO, agent_start CEO the page rebuilds the status
    history pending, active, completed, active for CEO: the completed node
    is active again. *)
Lemma restarted_node_is_revisited :
  Page.isOpen 0 Sample.streaming = true /\
  History.history 0 "CEO" Sample.restarted Sample.streaming =
    [Some "pending"; Some "active"; Some "completed"; Some "active"] /\
  History.monotonic (History.history 0 "CEO" Sample.restarted Sample.streaming) = false.
Proof. repeat split; vm_compute; reflexivity. Qed.

(** C1, amended: for every event sequence that begins with session_start
    and in which the events of a stage node come in causal order (at most
    one agent_start, then at most one of agent_complete and agent_error,
    and no second session_start), the node map the page rebuilds gives
    that node a monotonic status history: pending at session_start, then
    only the transitions pending to active and active to completed or
    failed. Whatever the order, agent_start sets the node to active and
    records started_at, agent_complete sets it to completed and records
    ended_at, and agent_error sets it to failed. *)
Theorem node_history_monotonic
    (i : nat) (n sid : string) (flow : list string) (es : list Event.t) (s : Page.State) :
  Page.isOpen i s = true ->
  n ∈ flow ->
  History.ordered_from n History.Waiting es = true ->
  let after e st := Page.nodes (Page.deliver i e st) !! n in
  after (Event.session_start sid flow) s = Some (Page.pendingNode n) /\
  History.monotonic (History.history i n (Event.session_start sid flow :: es) s) = true /\
  (forall st started_at, Page.isOpen i st = true ->
     exists node, after (Event.agent_start n started_at) st = Some node /\
       FlowNode.status node = "active" /\ FlowNode.started_at node = started_at) /\
  (forall st ended_at kpis insights, Page.isOpen i st = true ->
     exists node, after (Event.agent_complete n ended_at kpis insights) st = Some node /\
       FlowNode.status node = "completed" /\ FlowNode.ended_at node = ended_at /\
       FlowNode.started_at node = Page.nodes st !! n ≫= FlowNode.started_at) /\
  (forall st error, Page.isOpen i st = true ->
     exists node, after (Event.agent_error n error) st = Some node /\
       FlowNode.status node = "failed" /\
       FlowNode.started_at node = Page.nodes st !! n ≫= FlowNode.started_at).
Proof.
  intros Hopen Hin Ho after. subst after. cbv beta.
  assert (Hpending : Page.nodes (Page.deliver i (Event.session_start sid flow) s) !! n
                     = Some (Page.pendingNode n)).
  { rewrite (deliver_open i _ s Hopen), nodes_handle. apply initialNodes_lookup, Hin. }
  split; [exact Hpending |]. split.
  - cbn [History.history].
    apply (ordered_history i n es _ History.Waiting); [| exact Ho].
    unfold History.in_phase, History.statusOf. rewrite Hpending. reflexivity.
  - repeat split; intros st; intros; eexists;
      rewrite (deliver_open i _ st) by assumption;
      rewrite nodes_handle, lookup_insert_eq; repeat split; reflexivity.
Qed.

Lemma node_history_monotonic_witness :
  Page.isOpen 0 Sample.streaming = true /\
  History.ordered_from "CEO" History.Waiting Sample.orderly = true /\
  History.monotonic
    (History.history 0 "CEO" (Event.session_start "s-1" ["CEO"; "CFO"] :: Sample.orderly)
       Sample.streaming) = true.
Proof.
  split; [reflexivity |]. split; [reflexivity |].
  apply (node_history_monotonic 0 "CEO" "s-1" ["CEO"; "CFO"] Sample.orderly Sample.streaming).
  - reflexivity.
  - left.
  - reflexivity.
Defined.

(** ** Starting a new run *)

Lemma streaming_start_clears (env : option string) (s : Page.State) :
  Page.cleared (Page.runFlowWithStreaming env s) /\
  Page.loading (Page.runFlowWithStreaming env s) = true /\
  Page.eventSourceRef (Page.runFlowWithStreaming env s) = Some (length (Page.sources s)) /\
  Page.decisionSummary (Page.runFlowWithStreaming env s) = Page.decisionSummary s /\
  Page.flowReasoning (Page.runFlowWithStreaming env s) = Page.flowReasoning s.
Proof.
  unfold Page.runFlowWithStreaming, Page.closeExisting, Page.cleared.
  destruct (Page.eventSourceRef (Page.resetForStreaming s)) eqn:E; simpl;
    rewrite ?length_alter; repeat split; reflexivity.
Qed.

Lemma question_start_clears (s : Page.State) :
  Page.blank (Page.question s) = false ->
  Page.cleared (Page.askBegin s) /\
  Page.loading (Page.askBegin s) = true /\
  Page.decisionSummary (Page.askBegin s) = None /\
  Page.flowReasoning (Page.askBegin s) = "" /\
  Page.eventSourceRef (Page.askBegin s) = Page.eventSourceRef s /\
  Page.sources (Page.askBegin s) = Page.sources s.
Proof.
  intros Hq. unfold Page.askBegin, Page.cleared. rewrite Hq.
  repeat split; reflexivity.
Qed.

(** The question path leaves the connections as they are: a stream that
    was open before the question is still open after it. *)
Lemma question_start_keeps_stream (j : nat) (s : Page.State) :
  Page.isOpen j (Page.askBegin s) = Page.isOpen j s.
Proof.
  unfold Page.askBegin. destruct (Page.blank (Page.question s)); reflexivity.
Qed.

Lemma isOpen_closeSource (k j : nat) (s : Page.State) :
  Page.isOpen j (Page.closeSource k s) =
    if decide (k = j) then false else Page.isOpen j s.
Proof.
  unfold Page.isOpen, Page.closeSource. simpl.
  destruct (decide (k = j)) as [-> | Hne].
  - rewrite list_lookup_alter_eq. destruct (Page.sources s !! j); reflexivity.
  - rewrite list_lookup_alter_ne by exact Hne. reflexivity.
Qed.

Lemma singleConnection_close (k : nat) (s : Page.State) :
  Page.singleConnection s -> Page.singleConnection (Page.closeSource k s).
Proof.
  intros [Hb Ho]. split.
  - intros j Hj. unfold Page.closeSource. simpl. rewrite length_alter. apply Hb, Hj.
  - intros j Hj. rewrite isOpen_closeSource in Hj.
    case_decide; [discriminate |]. apply Ho, Hj.
Qed.

(** A state that differs only in cells other than the connections. *)
Lemma singleConnection_frame (s s' : Page.State) :
  Page.eventSourceRef s' = Page.eventSourceRef s ->
  Page.sources s' = Page.sources s ->
  Page.singleConnection s -> Page.singleConnection s'.
Proof.
  intros Hr Hs [Hb Ho]. unfold Page.singleConnection, Page.isOpen.
  rewrite Hr, Hs. split; [exact Hb | exact Ho].
Qed.

Lemma isOpen_reset (j : nat) (s : Page.State) :
  Page.isOpen j (Page.resetForStreaming s) = Page.isOpen j s.
Proof. reflexivity. Qed.

Lemma ref_reset (s : Page.State) :
  Page.eventSourceRef (Page.resetForStreaming s) = Page.eventSourceRef s.
Proof. reflexivity. Qed.

Lemma sources_reset (s : Page.State) :
  Page.sources (Page.resetForStreaming s) = Page.sources s.
Proof. reflexivity. Qed.

Lemma sources_closeSource (k : nat) (s : Page.State) :
  Page.sources (Page.closeSource k s) = alter EventSource.close k (Page.sources s).
Proof. reflexivity. Qed.

Lemma sources_openSource (url : string) (s : Page.State) :
  Page.sources (Page.openSource url s) =
    (Page.sources s ++ [EventSource.mk url true])%list.
Proof. reflexivity. Qed.

Lemma ref_openSource (url : string) (s : Page.State) :
  Page.eventSourceRef (Page.openSource url s) = Some (length (Page.sources s)).
Proof. reflexivity. Qed.

Lemma isOpen_openSource (url : string) (j : nat) (s : Page.State) :
  Page.isOpen j (Page.openSource url s) =
    if decide (j < length (Page.sources s)) then Page.isOpen j s
    else bool_decide (j = length (Page.sources s)).
Proof.
  unfold Page.isOpen. rewrite sources_openSource.
  destruct (decide (j < length (Page.sources s))) as [Hlt | Hge].
  - rewrite lookup_app_l by exact Hlt. reflexivity.
  - rewrite lookup_app_r by lia.
    destruct (decide (j = length (Page.sources s))) as [-> | Hne].
    + rewrite Nat.sub_diag, bool_decide_eq_true_2 by reflexivity. reflexivity.
    + rewrite bool_decide_eq_false_2 by exact Hne.
      destruct (j - length (Page.sources s)) as [| k] eqn:E; [lia | reflexivity].
Qed.

Lemma closeExisting_singleConnection (s : Page.State) :
  Page.singleConnection s ->
  length (Page.sources (Page.closeExisting (Page.resetForStreaming s)))
    = length (Page.sources s) /\
  forall j, Page.isOpen j (Page.closeExisting (Page.resetForStreaming s)) = false.
Proof.
  intros [Hb Ho]. unfold Page.closeExisting. rewrite ref_reset.
  destruct (Page.eventSourceRef s) as [k |] eqn:Ek.
  - split.
    + rewrite sources_closeSource, length_alter, sources_reset. reflexivity.
    + intros j. rewrite isOpen_closeSource. case_decide; [reflexivity |].
      rewrite isOpen_reset.
      destruct (Page.isOpen j s) eqn:Ej; [| reflexivity].
      specialize (Ho j Ej). congruence.
  - split; [rewrite sources_reset; reflexivity |]. intros j.
    rewrite isOpen_reset.
    destruct (Page.isOpen j s) eqn:Ej; [| reflexivity].
    specialize (Ho j Ej). discriminate.
Qed.

(** In a state with at most one open connection, "Run Flow" leaves every
    connection of earlier runs closed and the new one open. *)
Lemma streaming_start_closes_all (env : option string) (s : Page.State) :
  Page.singleConnection s ->
  let s' := Page.runFlowWithStreaming env s in
  Page.singleConnection s' /\
  (forall j, j < length (Page.sources s) -> Page.isOpen j s' = false) /\
  Page.isOpen (length (Page.sources s)) s' = true.
Proof.
  intros Hs s'.
  destruct (closeExisting_singleConnection s Hs) as [Hlen Hclosed].
  subst s'. unfold Page.runFlowWithStreaming.
  set (s1 := Page.closeExisting (Page.resetForStreaming s)) in *.
  generalize (Page.streamUrl env s1). intros url.
  assert (Hopen : forall j, Page.isOpen j (Page.openSource url s1)
                            = bool_decide (j = length (Page.sources s))).
  { intros j. rewrite isOpen_openSource, Hlen.
    destruct (decide (j < length (Page.sources s))) as [Hlt | Hge]; [| reflexivity].
    rewrite Hclosed. symmetry. apply bool_decide_eq_false_2. lia. }
  split; [split |]; [| | split].
  - intros j Hj. rewrite ref_openSource in Hj. rewrite sources_openSource.
    injection Hj as <-. rewrite length_app. simpl. lia.
  - intros j Hj. rewrite Hopen in Hj. apply bool_decide_eq_true_1 in Hj.
    rewrite ref_openSource, Hlen, Hj. reflexivity.
  - intros j Hj. rewrite Hopen. apply bool_decide_eq_false_2. lia.
  - rewrite Hopen. apply bool_decide_eq_true_2. reflexivity.
Qed.

Lemma askSettle_connections (now : string) (o : Page.chatOutcome) (s : Page.State) :
  Page.eventSourceRef (Page.askSettle now o s) = Page.eventSourceRef s /\
  Page.sources (Page.askSettle now o s) = Page.sources s.
Proof.
  unfold Page.askSettle. destruct o as [m | [] data]; try (split; reflexivity).
  unfold Page.showAnswer, Page.storeEvaluation.
  destruct (ChatResponse.agent_outputs data), (ChatResponse.handoffs data),
    (ChatResponse.evaluation data), (ChatResponse.overall_score data);
    split; reflexivity.
Qed.

Lemma handle_connections (i : nat) (e : Event.t) (s : Page.State) :
  Page.singleConnection s -> Page.singleConnection (Page.handle i e s).
Proof.
  intros Hs. destruct e;
    try (revert Hs; apply singleConnection_frame; reflexivity).
  - unfold Page.handle.
    destruct (present kpis || present insights);
      revert Hs; apply singleConnection_frame; reflexivity.
  - apply (singleConnection_close i) in Hs. revert Hs.
    apply singleConnection_frame; reflexivity.
Qed.

Lemma step_singleConnection (env : option string) (a : Page.action) (s s' : Page.State) :
  Page.step env a s = Some s' -> Page.singleConnection s -> Page.singleConnection s'.
Proof.
  intros Hstep Hs. destruct a; simpl in Hstep.
  - injection Hstep as <-. revert Hs. apply singleConnection_frame; reflexivity.
  - injection Hstep as <-. revert Hs. apply singleConnection_frame; reflexivity.
  - injection Hstep as <-. revert Hs. apply singleConnection_frame; reflexivity.
  - destruct (Page.loading s); [discriminate |]. injection Hstep as <-.
    apply (streaming_start_closes_all env s Hs).
  - destruct (Page.loading s || Page.blank (Page.question s)); [discriminate |].
    injection Hstep as <-. revert Hs. unfold Page.askBegin.
    destruct (Page.blank (Page.question s)); [tauto |].
    apply singleConnection_frame; reflexivity.
  - injection Hstep as <-. revert Hs. unfold Page.askBegin.
    destruct (Page.blank (Page.question s)); [tauto |].
    apply singleConnection_frame; reflexivity.
  - destruct (Page.inflight s); [discriminate |]. injection Hstep as <-.
    revert Hs. apply singleConnection_frame; apply askSettle_connections.
  - destruct (Page.isOpen i s); [| discriminate]. injection Hstep as <-.
    revert Hs. apply singleConnection_frame; reflexivity.
  - destruct (Page.isOpen i s); [| discriminate]. injection Hstep as <-.
    apply handle_connections, Hs.
  - destruct (Page.isOpen i s); [| discriminate]. injection Hstep as <-.
    apply (singleConnection_close i) in Hs. revert Hs.
    apply singleConnection_frame; reflexivity.
  - injection Hstep as <-. revert Hs. apply singleConnection_frame; reflexivity.
Qed.

Lemma run_singleConnection (env : option string) (acts : list Page.action) :
  forall s s', Page.run env acts s = Some s' ->
    Page.singleConnection s -> Page.singleConnection s'.
Proof.
  induction acts as [| a rest IH]; intros s s' Hrun Hs; simpl in Hrun.
  - injection Hrun as <-. exact Hs.
  - destruct (Page.step env a s) as [s1 |] eqn:E; [| discriminate].
    apply (IH s1 s' Hrun). apply (step_singleConnection env a s s1 E Hs).
Qed.

(** In every state the page can reach, only the connection held in
    [eventSourceRef] can be open; a click on "Run Flow" therefore leaves
    every connection of earlier runs closed. *)
Lemma reachable_singleConnection (env : option string) (s : Page.State) :
  Page.reachable env s -> Page.singleConnection s.
Proof.
  intros [acts Hrun]. apply (run_singleConnection env acts _ _ Hrun).
  split; intros j Hj; discriminate Hj.
Qed.

(** C10: a new run does not start from a clean slate. Both paths empty the
    node map, current node, confidence, agent outputs, handoffs,
    evaluation, constraint status and session record. But after a question
    was answered, a click on "Run Flow" keeps that question's decision
    summary and flow reasoning, which only the question path resets; and a
    question asked with the Enter key while a stream is running leaves the
    stream's connection open, which only the streaming path closes, so the
    next event of the earlier session is written into the new run. *)
Theorem prior_session_state_survives :
  let after acts := default Page.initial (Page.run None acts Page.initial) in
  let s1 := after Sample.ask_then_run in
  let s2 := after (take 4 Sample.run_then_ask) in
  let s3 := after Sample.run_then_ask in
  (Page.run None Sample.ask_then_run Page.initial = Some s1 /\
   Page.cleared s1 /\
   Page.streamStatus s1 = "Starting..." /\
   Page.flowReasoning s1 = "General performance question" /\
   DecisionSummary.summary <$> Page.decisionSummary s1 = Some (Some "Revenue is on plan.")) /\
  (Page.run None (take 4 Sample.run_then_ask) Page.initial = Some s2 /\
   Page.cleared s2 /\
   Page.streamStatus s2 = "Analyzing question..." /\
   Page.isOpen 0 s2 = true /\
   Page.run None Sample.run_then_ask Page.initial = Some s3 /\
   History.statusOf "CEO" s3 = Some "active" /\
   Page.currentNode s3 = Some "CEO" /\
   Page.streamStatus s3 = "Running CEO...").
Proof.
  unfold Page.cleared. cbv zeta.
  repeat match goal with |- _ /\ _ => split end; vm_compute; reflexivity.
Qed.

(** * Further properties of the code *)

(** ** The event stream *)

Lemma replay_closed (i : nat) (es : list Event.t) (s : Page.State) :
  Page.isOpen i s = false -> Page.replay i es s = s.
Proof.
  intros Hc. unfold Page.replay. induction es as [| e rest IH]; [reflexivity |].
  cbn [foldl]. rewrite (deliver_closed i e s Hc). exact IH.
Qed.

Lemma replay_cons (i : nat) (e : Event.t) (es : list Event.t) (s : Page.State) :
  Page.replay i (e :: es) s = Page.replay i es (Page.deliver i e s).
Proof. reflexivity. Qed.

(** Every listener but that of session_complete leaves the connections
    as they are. *)
Lemma handle_keeps_sources (i : nat) (e : Event.t) (s : Page.State) :
  Page.isSessionComplete e = false ->
  Page.sources (Page.handle i e s) = Page.sources s.
Proof.
  intros He. destruct e; try discriminate; try reflexivity.
  unfold Page.handle. destruct (present kpis || present insights); reflexivity.
Qed.

Lemma handle_keeps_open (i j : nat) (e : Event.t) (s : Page.State) :
  Page.isSessionComplete e = false ->
  Page.isOpen j (Page.handle i e s) = Page.isOpen j s.
Proof.
  intros He. unfold Page.isOpen. rewrite (handle_keeps_sources i e s He). reflexivity.
Qed.

Lemma handoffs_handle (i : nat) (e : Event.t) (s : Page.State) :
  Page.handoffs (Page.handle i e s) =
    (Page.handoffs s ++ Page.handoffPayloads [e])%list.
Proof.
  destruct e; cbn [Page.handoffPayloads omap]; rewrite ?app_nil_r; try reflexivity.
  unfold Page.handle. destruct (present kpis || present insights); reflexivity.
Qed.

(** X1: in every state the page can reach, at most one event-stream
    connection is open, and it is the one held in [eventSourceRef]. *)
Theorem at_most_one_open_stream (env : option string) (s : Page.State) :
  Page.reachable env s ->
  (forall j, Page.isOpen j s = true -> Page.eventSourceRef s = Some j) /\
  (forall j k, Page.isOpen j s = true -> Page.isOpen k s = true -> j = k).
Proof.
  intros Hr. destruct (reachable_singleConnection env s Hr) as [_ Ho].
  split; [exact Ho |].
  intros j k Hj Hk. apply Ho in Hj. apply Ho in Hk. congruence.
Qed.

Lemma at_most_one_open_stream_witness :
  Page.reachable None Sample.streaming /\
  Page.eventSourceRef Sample.streaming = Some 0.
Proof.
  assert (Hr : Page.reachable None Sample.streaming)
    by (exists [Page.ClickRunFlow]; reflexivity).
  split; [exact Hr |].
  apply (at_most_one_open_stream None Sample.streaming Hr). reflexivity.
Defined.

(** X2: session_complete ends a stream: whatever events follow it on the
    same connection, the page is in the state the session_complete listener
    left; in that state the connection is closed, loading is off and no
    node is current. *)
Theorem session_complete_is_final
    (i : nat) (sid ended_at : option string) (cs : option (gmap string string))
    (es : list Event.t) (s : Page.State) :
  let done := Page.deliver i (Event.session_complete sid ended_at cs) s in
  Page.replay i (Event.session_complete sid ended_at cs :: es) s = done /\
  Page.isOpen i done = false /\
  (Page.isOpen i s = true ->
   Page.loading done = false /\ Page.currentNode done = None /\
   Page.constraintsStatus done = default ∅ cs).
Proof.
  intros done. subst done.
  assert (Hclosed : Page.isOpen i (Page.deliver i (Event.session_complete sid ended_at cs) s)
                    = false).
  { unfold Page.deliver. destruct (Page.isOpen i s) eqn:Ho; [| exact Ho].
    cbn [Page.handle]. rewrite isOpen_closeSource. rewrite decide_True by reflexivity.
    reflexivity. }
  split; [| split].
  - rewrite replay_cons. apply replay_closed, Hclosed.
  - exact Hclosed.
  - intros Ho. rewrite (deliver_open i _ s Ho). repeat split; reflexivity.
Qed.

Lemma session_complete_is_final_witness :
  Page.isOpen 0 Sample.streaming = true /\
  Page.loading
    (Page.deliver 0 (Event.session_complete (Some "s-1") None None) Sample.streaming) = false.
Proof.
  split; [reflexivity |].
  apply (session_complete_is_final 0 (Some "s-1") None None [] Sample.streaming).
  reflexivity.
Defined.

Lemma handoffs_prefix (i : nat) (es : list Event.t) (s : Page.State) :
  Page.handoffs s `prefix_of` Page.handoffs (Page.replay i es s).
Proof.
  revert s. induction es as [| e rest IH]; intros s; [reflexivity |].
  rewrite replay_cons. etransitivity; [| apply IH].
  unfold Page.deliver. destruct (Page.isOpen i s); [| reflexivity].
  rewrite handoffs_handle. apply prefix_app_r. reflexivity.
Qed.

(** X3: the stream listeners only ever append to the handoff list: after
    any events the earlier handoffs are still there, in front; and while
    the connection is open and no session_complete arrives, the list grows
    by exactly the payloads of the handoff events, in order. *)
Theorem handoffs_append_only (i : nat) (es : list Event.t) (s : Page.State) :
  Page.handoffs s `prefix_of` Page.handoffs (Page.replay i es s) /\
  (Page.isOpen i s = true ->
   forallb (fun e => negb (Page.isSessionComplete e)) es = true ->
   Page.handoffs (Page.replay i es s) =
     (Page.handoffs s ++ Page.handoffPayloads es)%list).
Proof.
  split.
  - apply handoffs_prefix.
  - revert s. induction es as [| e rest IH]; intros s Ho Hn.
    + cbn. rewrite app_nil_r. reflexivity.
    + cbn [forallb] in Hn. apply andb_prop in Hn as [He Hrest].
      apply negb_true_iff in He.
      rewrite replay_cons, (deliver_open i e s Ho).
      rewrite IH; [| rewrite handle_keeps_open; assumption | exact Hrest].
      rewrite handoffs_handle, <- app_assoc. f_equal.
      change (e :: rest) with ([e] ++ rest)%list.
      unfold Page.handoffPayloads. rewrite omap_app. reflexivity.
Qed.

Lemma handoffs_append_only_witness :
  Page.isOpen 0 Sample.streaming = true /\
  Page.handoffs
    (Page.replay 0 [Event.handoff Sample.handoff; Event.agent_start "CFO" None;
                    Event.handoff Sample.handoff] Sample.streaming)
  = [Sample.handoff; Sample.handoff].
Proof.
  split; [reflexivity |].
  apply (handoffs_append_only 0
           [Event.handoff Sample.handoff; Event.agent_start "CFO" None;
            Event.handoff Sample.handoff] Sample.streaming); reflexivity.
Defined.

(** X4: session_start rebuilds the node map from the flow's node list
    alone: afterwards a name has an entry exactly when it is in the list,
    and every entry is pending with no timestamps, whatever the map held
    before. *)
Theorem session_start_rebuilds_nodes
    (i : nat) (sid : string) (flow : list string) (s : Page.State) (n : string) :
  Page.isOpen i s = true ->
  Page.nodes (Page.deliver i (Event.session_start sid flow) s) !! n =
    if decide (n ∈ flow) then Some (Page.pendingNode n) else None.
Proof.
  intros Ho. rewrite (deliver_open i _ s Ho), nodes_handle.
  unfold Page.initialNodes. rewrite foldl_pending_lookup, lookup_empty. reflexivity.
Qed.

Lemma session_start_rebuilds_nodes_witness :
  Page.isOpen 0 Sample.streaming = true /\
  Page.nodes
    (Page.deliver 0 (Event.session_start "s-2" ["CFO"])
       (Page.replay 0 Sample.restarted Sample.streaming)) !! "CEO" = None.
Proof.
  split; [reflexivity |].
  rewrite (session_start_rebuilds_nodes 0 "s-2" ["CFO"]
             (Page.replay 0 Sample.restarted Sample.streaming) "CEO");
    reflexivity.
Defined.

(** X5: an event changes at most the node it names: the entry of node [n]
    is untouched by confidence, handoff, evaluation and session_complete
    events and by the agent events of every other agent. *)
Theorem events_touch_only_their_node (i : nat) (e : Event.t) (s : Page.State) (n : string) :
  Page.isSessionStart e = false ->
  Page.agentOf e <> Some n ->
  Page.nodes (Page.deliver i e s) !! n = Page.nodes s !! n.
Proof.
  intros Hs Ha. unfold Page.deliver. destruct (Page.isOpen i s); [| reflexivity].
  rewrite nodes_handle. destruct e; try discriminate; try reflexivity;
    cbn [Page.agentOf] in Ha; apply lookup_insert_ne; congruence.
Qed.

Lemma events_touch_only_their_node_witness :
  Page.nodes (Page.deliver 0 (Event.agent_error "CFO" "timeout")
                (Page.replay 0 Sample.restarted Sample.streaming)) !! "CEO"
  = Page.nodes (Page.replay 0 Sample.restarted Sample.streaming) !! "CEO".
Proof.
  apply (events_touch_only_their_node 0 (Event.agent_error "CFO" "timeout")
           (Page.replay 0 Sample.restarted Sample.streaming) "CEO").
  - reflexivity.
  - discriminate.
Defined.

(** X6: short of a new session_start, the stream never removes a node:
    every name in the node map is still in it after any further events. *)
Theorem nodes_are_never_removed (i : nat) (es : list Event.t) (s : Page.State) :
  forallb (fun e => negb (Page.isSessionStart e)) es = true ->
  dom (Page.nodes s) ⊆ dom (Page.nodes (Page.replay i es s)).
Proof.
  revert s. induction es as [| e rest IH]; intros s Hn; [reflexivity |].
  cbn [forallb] in Hn. apply andb_prop in Hn as [He Hrest].
  apply negb_true_iff in He.
  rewrite replay_cons. etransitivity; [| apply IH, Hrest].
  unfold Page.deliver. destruct (Page.isOpen i s); [| reflexivity].
  rewrite nodes_handle. destruct e; try discriminate; try reflexivity;
    apply dom_insert_subseteq.
Qed.

Lemma nodes_are_never_removed_witness :
  dom (Page.nodes (Page.deliver 0 (Event.session_start "s-1" ["CEO"; "CFO"]) Sample.streaming))
  ⊆ dom (Page.nodes
           (Page.replay 0 Sample.orderly
              (Page.deliver 0 (Event.session_start "s-1" ["CEO"; "CFO"]) Sample.streaming))).
Proof.
  apply (nodes_are_never_removed 0 Sample.orderly). reflexivity.
Defined.

(** ** Invariants of the page *)

Lemma reachable_invariant (env : option string) (P : Page.State -> Prop) :
  P Page.initial ->
  (forall a s s', Page.step env a s = Some s' -> P s -> P s') ->
  forall s, Page.reachable env s -> P s.
Proof.
  intros Hinit Hstep s [acts Hrun].
  revert Hrun. generalize Page.initial, Hinit. clear Hinit.
  induction acts as [| a rest IH]; intros s0 H0 Hrun; simpl in Hrun.
  - injection Hrun as <-. exact H0.
  - destruct (Page.step env a s0) as [s1 |] eqn:E; [| discriminate].
    apply (IH s1); [apply (Hstep a s0 s1 E H0) | exact Hrun].
Qed.

Lemma askSettle_cells (now : string) (o : Page.chatOutcome) (s : Page.State) :
  Page.loading (Page.askSettle now o s) = false /\
  Page.selectedHandoff (Page.askSettle now o s) = Page.selectedHandoff s /\
  Page.nodes (Page.askSettle now o s) =
    match o with
    | Page.Answered true data => Page.nodeData (ChatResponse.agents_involved data)
    | _ => Page.nodes s
    end.
Proof.
  unfold Page.askSettle. destruct o as [m | [] data]; try (repeat split; reflexivity).
  unfold Page.showAnswer, Page.storeEvaluation.
  destruct (ChatResponse.agent_outputs data), (ChatResponse.handoffs data),
    (ChatResponse.evaluation data), (ChatResponse.overall_score data);
    repeat split; reflexivity.
Qed.

Lemma handle_cells (i : nat) (e : Event.t) (s : Page.State) :
  Page.selectedHandoff (Page.handle i e s) = Page.selectedHandoff s /\
  (Page.isSessionComplete e = false ->
   Page.loading (Page.handle i e s) = Page.loading s /\
   Page.session (Page.handle i e s) = Page.session s).
Proof.
  destruct e; try (split; [reflexivity | intros; try discriminate; split; reflexivity]).
  unfold Page.handle. destruct (present kpis || present insights);
    (split; [reflexivity | intros; split; reflexivity]).
Qed.

Lemma runFlowWithStreaming_cells (env : option string) (s : Page.State) :
  Page.selectedHandoff (Page.runFlowWithStreaming env s) = Page.selectedHandoff s /\
  Page.session (Page.runFlowWithStreaming env s) = None /\
  Page.nodes (Page.runFlowWithStreaming env s) = ∅.
Proof.
  unfold Page.runFlowWithStreaming, Page.closeExisting. rewrite ref_reset.
  destruct (Page.eventSourceRef s); repeat split; reflexivity.
Qed.

Lemma askBegin_cells (s : Page.State) :
  Page.selectedHandoff (Page.askBegin s) = Page.selectedHandoff s /\
  (Page.loading (Page.askBegin s) = true -> Page.session (Page.askBegin s) = None
     \/ Page.askBegin s = s) /\
  (Page.nodes (Page.askBegin s) = ∅ \/ Page.askBegin s = s).
Proof.
  unfold Page.askBegin. destruct (Page.blank (Page.question s)).
  - repeat split; auto.
  - repeat split; auto.
Qed.

(** X7: in every state the page can reach, a session record is held only
    while loading is off; so the export buttons, which need the session
    record, are never shown while a run is loading. *)
Theorem export_only_when_idle (env : option string) (s : Page.State) :
  Page.reachable env s ->
  (Page.loading s = true -> Page.session s = None) /\
  (Page.showsExport s = true -> Page.loading s = false).
Proof.
  intros Hr.
  assert (H : Page.loading s = true -> Page.session s = None).
  { revert s Hr.
    apply (reachable_invariant env
             (fun s => Page.loading s = true -> Page.session s = None));
      [discriminate |].
    intros a s s' Hstep IH. destruct a; simpl in Hstep.
    - injection Hstep as <-. exact IH.
    - injection Hstep as <-. exact IH.
    - injection Hstep as <-. exact IH.
    - destruct (Page.loading s); [discriminate |]. injection Hstep as <-.
      intros _. apply runFlowWithStreaming_cells.
    - destruct (Page.loading s || Page.blank (Page.question s)); [discriminate |].
      injection Hstep as <-. intros Hl.
      destruct (askBegin_cells s) as (_ & [Hn | He] & _); auto.
      rewrite He in *. auto.
    - injection Hstep as <-. intros Hl.
      destruct (askBegin_cells s) as (_ & [Hn | He] & _); auto.
      rewrite He in *. auto.
    - destruct (Page.inflight s); [discriminate |]. injection Hstep as <-.
      intros Hl. destruct (askSettle_cells now o s) as (Hf & _). congruence.
    - destruct (Page.isOpen i s); [| discriminate]. injection Hstep as <-. exact IH.
    - destruct (Page.isOpen i s); [| discriminate]. injection Hstep as <-.
      destruct (Page.isSessionComplete e) eqn:Ec.
      + destruct e; discriminate.
      + destruct (handle_cells i e s) as (_ & Hk). destruct (Hk Ec) as [Hl Hs].
        rewrite Hl, Hs. exact IH.
    - destruct (Page.isOpen i s); [| discriminate]. injection Hstep as <-.
      intros Hl. discriminate Hl.
    - injection Hstep as <-. exact IH. }
  split; [exact H |].
  intros He. destruct (Page.loading s) eqn:Hl; [| reflexivity].
  unfold Page.showsExport in He. rewrite (H eq_refl) in He. discriminate.
Qed.

Lemma export_only_when_idle_witness :
  Page.reachable None Sample.streaming /\ Page.session Sample.streaming = None.
Proof.
  assert (Hr : Page.reachable None Sample.streaming)
    by (exists [Page.ClickRunFlow]; reflexivity).
  split; [exact Hr |].
  apply (export_only_when_idle None Sample.streaming Hr). reflexivity.
Defined.

Lemma selectedHandoff_stays_empty (env : option string) (s : Page.State) :
  Page.reachable env s -> Page.selectedHandoff s = None.
Proof.
  revert s.
  apply (reachable_invariant env (fun s => Page.selectedHandoff s = None));
    [reflexivity |].
  intros a s s' Hstep IH. destruct a; simpl in Hstep;
    repeat match type of Hstep with
           | (if ?b then _ else _) = _ => destruct b; try discriminate
           | match ?n with O => _ | S _ => _ end = _ => destruct n; try discriminate
           end;
    injection Hstep as <-; try exact IH; try reflexivity.
  - rewrite (proj1 (runFlowWithStreaming_cells env s)). exact IH.
  - rewrite (proj1 (askBegin_cells s)). exact IH.
  - rewrite (proj1 (askBegin_cells s)). exact IH.
  - rewrite (proj1 (proj2 (askSettle_cells now o s))). exact IH.
  - rewrite (proj1 (handle_cells i e s)). exact IH.
Qed.

(** X8: no sequence of user actions and stream events opens the handoff
    drawer: [selectedHandoff] is set only by the [onNodeClick] callback,
    which the timeline never calls, so it stays empty. *)
Theorem handoff_drawer_never_opens (env : option string) (s : Page.State) :
  Page.reachable env s ->
  Page.selectedHandoff s = None /\ Page.showsDrawer s = false.
Proof.
  intros Hr. pose proof (selectedHandoff_stays_empty env s Hr) as H.
  split; [exact H |]. unfold Page.showsDrawer. rewrite H. reflexivity.
Qed.

Lemma handoff_drawer_never_opens_witness :
  Page.reachable None (default Page.initial (Page.run None Sample.run_then_ask Page.initial)) /\
  Page.showsDrawer (default Page.initial (Page.run None Sample.run_then_ask Page.initial)) = false.
Proof.
  assert (Hr : Page.reachable None
                 (default Page.initial (Page.run None Sample.run_then_ask Page.initial)))
    by (exists Sample.run_then_ask; vm_compute; reflexivity).
  split; [exact Hr |].
  apply (handoff_drawer_never_opens None _ Hr).
Defined.






Lemma foldl_insert_lookup (f : string -> FlowNode.t) (l : list string)
    (m : gmap string FlowNode.t) (n : string) :
  foldl (fun m k => <[k := f k]> m) m l !! n =
    if decide (n ∈ l) then Some (f n) else m !! n.
Proof.
  revert m. induction l as [| x l IH]; intros m; cbn [foldl].
  - destruct (decide (n ∈ [])) as [H | H]; [inversion H | reflexivity].
  - rewrite IH. destruct (decide (n ∈ l)) as [Hl | Hl].
    + rewrite (decide_True (P := n ∈ x :: l)) by (right; exact Hl). reflexivity.
    + destruct (decide (x = n)) as [-> | Hx].
      * rewrite lookup_insert_eq. rewrite (decide_True (P := n ∈ n :: l)) by left.
        reflexivity.
      * rewrite lookup_insert_ne by exact Hx.
        rewrite (decide_False (P := n ∈ x :: l)); [reflexivity |].
        intros Hin. apply elem_of_cons in Hin as [-> | Hin];
          [apply Hx; reflexivity | apply Hl, Hin].
Qed.

Lemma nodeData_lookup (agents : option (list string)) (n : string) :
  Page.nodeData agents !! n =
    if decide (n ∈ or_nil agents)
    then Some (FlowNode.mk (Some n) "completed" None None) else None.
Proof.
  unfold Page.nodeData.
  rewrite (foldl_insert_lookup (fun a => FlowNode.mk (Some a) "completed" None None)).
  rewrite lookup_empty. reflexivity.
Qed.

Lemma wellFormed_frame (s s' : Page.State) :
  Page.nodes s' = Page.nodes s -> Page.nodesWellFormed s -> Page.nodesWellFormed s'.
Proof. intros Hn Hw k node. rewrite Hn. apply Hw. Qed.

Lemma wellFormed_empty (s : Page.State) :
  Page.nodes s = ∅ -> Page.nodesWellFormed s.
Proof. intros Hn k node. rewrite Hn, lookup_empty. discriminate. Qed.

Lemma wellFormed_handle (i : nat) (e : Event.t) (s : Page.State) :
  Page.nodesWellFormed s -> Page.nodesWellFormed (Page.handle i e s).
Proof.
  intros Hw k node. rewrite nodes_handle.
  assert (Hprev : forall a p, Page.nodes s !! a = Some p ->
                    FlowNode.agent p = None \/ FlowNode.agent p = Some a)
    by (intros a p Hp; apply (Hw a p Hp)).
  assert (Hagent : forall a, Page.nodes s !! a ≫= FlowNode.agent = None
                             \/ Page.nodes s !! a ≫= FlowNode.agent = Some a).
  { intros a. destruct (Page.nodes s !! a) as [p |] eqn:Ep; [| left; reflexivity].
    apply (Hprev a p Ep). }
  destruct e; try apply Hw.
  - unfold Page.initialNodes. rewrite foldl_pending_lookup, lookup_empty.
    case_decide; [| discriminate]. intros [= <-].
    split; [left; reflexivity | right; reflexivity].
  - destruct (decide (agent = k)) as [-> | Hne].
    + rewrite lookup_insert_eq. intros [= <-].
      split; [right; left; reflexivity | apply Hagent].
    + rewrite lookup_insert_ne by exact Hne. apply Hw.
  - destruct (decide (agent = k)) as [-> | Hne].
    + rewrite lookup_insert_eq. intros [= <-].
      split; [right; right; left; reflexivity | apply Hagent].
    + rewrite lookup_insert_ne by exact Hne. apply Hw.
  - destruct (decide (agent = k)) as [-> | Hne].
    + rewrite lookup_insert_eq. intros [= <-].
      split; [right; right; right; reflexivity | apply Hagent].
    + rewrite lookup_insert_ne by exact Hne. apply Hw.
Qed.

(** X9: in every state the page can reach, each entry of the node map has
    one of the four statuses pending, active, completed, failed, and its
    [agent] property, when it has one, is the name it is stored under; so
    the timeline's badge reads "Waiting" for pending nodes only. *)
Theorem nodes_stay_well_formed (env : option string) (s : Page.State) :
  Page.reachable env s ->
  Page.nodesWellFormed s /\
  (forall k node, Page.nodes s !! k = Some node ->
     (FlowTimeline.statusBadge (FlowNode.status node) = "Waiting" <->
      FlowNode.status node = "pending")).
Proof.
  intros Hr.
  assert (Hw : Page.nodesWellFormed s).
  { revert s Hr. apply (reachable_invariant env Page.nodesWellFormed).
    { apply wellFormed_empty. reflexivity. }
    intros a s s' Hstep IH. destruct a; simpl in Hstep;
      repeat match type of Hstep with
             | (if ?b then _ else _) = _ => destruct b; try discriminate
             | match ?n with O => _ | S _ => _ end = _ => destruct n; try discriminate
             end;
      injection Hstep as <-;
      try (revert IH; apply wellFormed_frame; reflexivity).
    - apply wellFormed_empty, runFlowWithStreaming_cells.
    - destruct (askBegin_cells s) as (_ & _ & [Hn | He]);
        [apply wellFormed_empty, Hn | rewrite He; exact IH].
    - destruct (askBegin_cells s) as (_ & _ & [Hn | He]);
        [apply wellFormed_empty, Hn | rewrite He; exact IH].
    - destruct (askSettle_cells now o s) as (_ & _ & Hn).
      destruct o as [m | [] data]; try (revert IH; apply wellFormed_frame; exact Hn).
      intros k node. rewrite Hn, nodeData_lookup.
      case_decide; [| discriminate]. intros [= <-].
      split; [right; right; left; reflexivity | right; reflexivity].
    - apply wellFormed_handle, IH. }
  split; [exact Hw |].
  intros k node Hk. destruct (Hw k node Hk) as [Hs _].
  unfold FlowTimeline.statusBadge.
  destruct Hs as [-> | [-> | [-> | ->]]]; simpl; split; intros; try reflexivity;
    discriminate.
Qed.

Lemma nodes_stay_well_formed_witness :
  Page.reachable None (default Page.initial (Page.run None Sample.run_then_ask Page.initial)) /\
  Page.nodesWellFormed
    (default Page.initial (Page.run None Sample.run_then_ask Page.initial)).
Proof.
  assert (Hr : Page.reachable None
                 (default Page.initial (Page.run None Sample.run_then_ask Page.initial)))
    by (exists Sample.run_then_ask; vm_compute; reflexivity).
  split; [exact Hr |].
  apply (nodes_stay_well_formed None _ Hr).
Defined.

(** ** The flow timeline *)

Lemma orderedNodes_elem (nodes : gmap string FlowNode.t) (name : string) (node : FlowNode.t) :
  (name, node) ∈ FlowTimeline.orderedNodes nodes <->
  name ∈ FlowTimeline.nodeOrder /\ nodes !! name = Some node.
Proof.
  unfold FlowTimeline.orderedNodes. rewrite list_elem_of_omap. split.
  - intros (x & Hx & Hf). destruct (nodes !! x) as [p |] eqn:Ep; [| discriminate].
    simpl in Hf. injection Hf as -> ->. split; assumption.
  - intros [Hin Hl]. exists name. split; [exact Hin |]. rewrite Hl. reflexivity.
Qed.

Lemma omap_names_sublist (nodes : gmap string FlowNode.t) (l : list string) :
  (omap (fun name => (fun n => (name, n)) <$> nodes !! name) l).*1 `sublist_of` l.
Proof.
  induction l as [| x l IH]; [constructor |].
  cbn [omap list_omap]. destruct (nodes !! x) as [p |]; simpl.
  - apply sublist_skip, IH.
  - apply sublist_cons, IH.
Qed.

(** X10: the timeline shows exactly the nodes of the map that carry one of
    the five names CEO, CFO, CMO, CIO, Evaluator, always in that fixed
    order and each at most once; a node under any other name is never
    shown, and every node shown has its own colours in AGENT_CONFIG, so
    the Evaluator fallback is not used for it. *)
Theorem timeline_shows_known_nodes (nodes : gmap string FlowNode.t) :
  (forall name node,
     (name, node) ∈ FlowTimeline.orderedNodes nodes <->
     name ∈ ["CEO"; "CFO"; "CMO"; "CIO"; "Evaluator"] /\ nodes !! name = Some node) /\
  (FlowTimeline.orderedNodes nodes).*1 `sublist_of` ["CEO"; "CFO"; "CMO"; "CIO"; "Evaluator"] /\
  NoDup (FlowTimeline.orderedNodes nodes).*1 /\
  length (FlowTimeline.orderedNodes nodes) <= 5 /\
  (forall name node,
     (name, node) ∈ FlowTimeline.orderedNodes nodes ->
     FlowTimeline.AGENT_CONFIG !! name = Some (FlowTimeline.configOf name)).
Proof.
  assert (Hsub := omap_names_sublist nodes FlowTimeline.nodeOrder).
  fold (FlowTimeline.orderedNodes nodes) in Hsub.
  split; [intros name node; apply orderedNodes_elem |].
  split; [exact Hsub |]. split; [| split].
  - eapply sublist_NoDup; [| exact Hsub].
    apply (bool_decide_unpack _). vm_compute. exact I.
  - apply sublist_length in Hsub. rewrite length_fmap in Hsub. exact Hsub.
  - intros name node Hin. apply orderedNodes_elem in Hin as [Hin _].
    unfold FlowTimeline.nodeOrder in Hin.
    repeat (apply elem_of_cons in Hin as [-> | Hin]; [vm_compute; reflexivity |]).
    inversion Hin.
Qed.

Lemma timeline_shows_known_nodes_witness :
  FlowTimeline.AGENT_CONFIG !! "CEO" = Some (FlowTimeline.configOf "CEO").
Proof.
  refine (proj2 (proj2 (proj2 (proj2
            (timeline_shows_known_nodes {[ "CEO" := Page.pendingNode "CEO" ]}))))
            "CEO" (Page.pendingNode "CEO") _).
  apply (proj1 (timeline_shows_known_nodes {[ "CEO" := Page.pendingNode "CEO" ]})).
  split; [left | reflexivity].
Defined.

Lemma filter_all_length {A} (f : A -> bool) (l : list A) :
  length (List.filter f l) <= length l /\
  (length (List.filter f l) = length l <-> forallb f l = true).
Proof.
  induction l as [| x l [IHle IHeq]]; [split; [reflexivity | split; reflexivity] |].
  cbn [List.filter forallb]. destruct (f x); cbn [length andb].
  - split; [lia |]. rewrite <- IHeq. split; lia.
  - split; [lia |]. split; [lia | discriminate].
Qed.

Lemma ratio_percent (d t : nat) :
  d <= t -> 0 < t ->
  let w := (inject_Z (Z.of_nat d) / inject_Z (Z.of_nat t) * 100)%Q in
  (0 <= w)%Q /\ (w <= 100)%Q /\ ((w == 100)%Q <-> d = t).
Proof.
  intros Hle Hpos w. subst w.
  set (D := inject_Z (Z.of_nat d)). set (T := inject_Z (Z.of_nat t)).
  assert (HD : (inject_Z 0 <= D)%Q) by (unfold D; rewrite <- Zle_Qle; lia).
  assert (HT : (inject_Z 0 < T)%Q) by (unfold T; rewrite <- Zlt_Qlt; lia).
  assert (HDT : (D <= T)%Q) by (unfold D, T; rewrite <- Zle_Qle; lia).
  change (inject_Z 0) with 0%Q in HD, HT.
  assert (H0 : (0 <= D / T)%Q) by (apply Qle_shift_div_l; [exact HT | lra]).
  assert (H1 : (D / T <= 1)%Q) by (apply Qle_shift_div_r; [exact HT | lra]).
  split; [lra |]. split; [lra |]. split.
  - intros Hw. assert (Hq : (D / T == 1)%Q) by lra.
    assert (Hnz : ~ (T == 0)%Q) by (intros Hz; rewrite Hz in HT; lra).
    assert (HE : (D == T)%Q).
    { pose proof (Qmult_div_r D T Hnz) as Hm. rewrite Hq in Hm. lra. }
    apply Nat2Z.inj. unfold D, T, Qeq in HE. simpl in HE. lia.
  - intros ->. subst D.
    assert (Hnz : ~ (T == 0)%Q) by (intros Hz; rewrite Hz in HT; lra).
    assert (Hq : (T / T == 1)%Q) by (apply Qmult_inv_r, Hnz).
    fold T. lra.
Qed.

Lemma progress_full (nodes : gmap string FlowNode.t) (w : Q) :
  FlowTimeline.progressWidth nodes = Some w ->
  (0 <= w)%Q /\ (w <= 100)%Q /\
  ((w == 100)%Q <->
   Forall (fun p => FlowNode.status p.2 = "completed") (FlowTimeline.orderedNodes nodes)).
Proof.
  unfold FlowTimeline.progressWidth, FlowTimeline.completedNodes.
  destruct (FlowTimeline.orderedNodes nodes) as [| p shown] eqn:E; [discriminate |].
  intros [= <-].
  set (f := fun p : string * FlowNode.t => String.eqb (FlowNode.status p.2) "completed").
  destruct (filter_all_length f (p :: shown)) as [Hle Heq].
  destruct (ratio_percent (length (List.filter f (p :: shown))) (length (p :: shown)) Hle)
    as (H0 & H1 & H100); [simpl; lia |].
  split; [exact H0 |]. split; [exact H1 |].
  etransitivity; [exact H100 |].
  rewrite Heq, forallb_forall, Forall_forall. unfold f.
  split; intros H x Hx.
  + apply String.eqb_eq, H, list_elem_of_In, Hx.
  + apply String.eqb_eq, H, list_elem_of_In, Hx.
Qed.

(** X11: the progress fill of the timeline is between 0 and 100 percent
    and is 100 exactly when every node shown is completed; it is undefined
    (0/0) exactly when the map holds no node with one of the five known
    names. *)
Theorem progress_fill_bounds (nodes : gmap string FlowNode.t) :
  (FlowTimeline.progressWidth nodes = None <-> FlowTimeline.orderedNodes nodes = []) /\
  (forall w, FlowTimeline.progressWidth nodes = Some w ->
     (0 <= w)%Q /\ (w <= 100)%Q /\
     ((w == 100)%Q <->
      Forall (fun p => FlowNode.status p.2 = "completed") (FlowTimeline.orderedNodes nodes))).
Proof.
  split; [| intros w; apply progress_full].
  unfold FlowTimeline.progressWidth.
  destruct (FlowTimeline.orderedNodes nodes); split; intros; try reflexivity; discriminate.
Qed.

Lemma progress_fill_bounds_witness :
  exists w,
    FlowTimeline.progressWidth (Page.nodes (Page.replay 0 Sample.restarted Sample.streaming))
      = Some w /\ (w <= 100)%Q.
Proof.
  eexists. split; [vm_compute; reflexivity |].
  apply (proj2 (progress_fill_bounds
                  (Page.nodes (Page.replay 0 Sample.restarted Sample.streaming)))).
  vm_compute. reflexivity.
Defined.

(** X12: after a successful chat answer the node map holds exactly the
    agents the answer names, each completed and without timestamps,
    whatever the map held before; the timeline then shows every node as
    done and, when it shows any, a full progress bar. *)
Theorem answered_nodes_are_all_done (now : string) (data : ChatResponse.t) (s : Page.State) :
  let s' := Page.askSettle now (Page.Answered true data) s in
  (forall n, Page.nodes s' !! n =
     if decide (n ∈ or_nil (ChatResponse.agents_involved data))
     then Some (FlowNode.mk (Some n) "completed" None None) else None) /\
  Forall (fun p => FlowTimeline.statusBadge (FlowNode.status p.2) = "Done")
    (FlowTimeline.orderedNodes (Page.nodes s')) /\
  (forall w, FlowTimeline.progressWidth (Page.nodes s') = Some w -> (w == 100)%Q).
Proof.
  intros s'. subst s'.
  destruct (askSettle_cells now (Page.Answered true data) s) as (_ & _ & Hn).
  rewrite Hn.
  assert (Hdone : Forall (fun p : string * FlowNode.t => FlowNode.status p.2 = "completed")
                    (FlowTimeline.orderedNodes
                       (Page.nodeData (ChatResponse.agents_involved data)))).
  { apply Forall_forall. intros [name node] Hin.
    apply orderedNodes_elem in Hin as [_ Hl]. rewrite nodeData_lookup in Hl.
    case_decide; [| discriminate]. injection Hl as <-. reflexivity. }
  split; [intros n; apply nodeData_lookup |]. split.
  - eapply Forall_impl; [exact Hdone |]. intros p Hp. simpl in Hp. rewrite Hp. reflexivity.
  - intros w Hw.
    apply (progress_full (Page.nodeData (ChatResponse.agents_involved data)) w Hw).
    exact Hdone.
Qed.

Lemma answered_nodes_are_all_done_witness :
  exists w,
    FlowTimeline.progressWidth
      (Page.nodes (Page.askSettle "now" (Page.Answered true (Sample.answer "High"))
                     Sample.streaming)) = Some w /\ (w == 100)%Q.
Proof.
  eexists. split; [vm_compute; reflexivity |].
  apply (answered_nodes_are_all_done "now" (Sample.answer "High") Sample.streaming).
  vm_compute. reflexivity.
Defined.

Lemma agentOutputs_handle (i : nat) (e : Event.t) (s : Page.State) :
  Page.agentOutputs (Page.handle i e s) =
    match e with
    | Event.agent_complete a _ kpis insights =>
        if present kpis || present insights
        then <[a := AgentOutput.mk (or_nil kpis) (or_nil insights)]> (Page.agentOutputs s)
        else Page.agentOutputs s
    | _ => Page.agentOutputs s
    end.
Proof.
  destruct e; try reflexivity.
  unfold Page.handle. destruct (present kpis || present insights); reflexivity.
Qed.

(** X13: what the timeline shows for an agent right after each of its
    events: the spinner in the agent's colour and "Analyzing..." after
    agent_start; the check mark and "Done" after agent_complete, even
    while the agent is still the current node; the cross and "Failed"
    after agent_error, and then, if the agent has stored no output, the
    expanded panel reads "Waiting to start...". *)
Theorem node_display_after_event
    (i : nat) (a : string) (s : Page.State) (animated : gset string) (isCurrent : bool) :
  Page.isOpen i s = true ->
  let look e := FlowNode.status <$> Page.nodes (Page.deliver i e s) !! a in
  let icon st := FlowTimeline.getStatusIcon animated a st isCurrent in
  (forall t, exists st, look (Event.agent_start a t) = Some st /\
     icon st = FlowTimeline.Loader2 (FlowTimeline.text (FlowTimeline.configOf a)) /\
     FlowTimeline.statusBadge st = "Analyzing...") /\
  (forall t kpis insights, exists st,
     look (Event.agent_complete a t kpis insights) = Some st /\
     icon st = FlowTimeline.CheckCircle (bool_decide (a ∈ animated)) /\
     FlowTimeline.statusBadge st = "Done") /\
  (forall error, exists st, look (Event.agent_error a error) = Some st /\
     icon st = FlowTimeline.XCircle /\
     FlowTimeline.statusBadge st = "Failed" /\
     (Page.agentOutputs s !! a = None ->
      let s' := Page.deliver i (Event.agent_error a error) s in
      FlowTimeline.panelBody (Page.nodes s') (Page.agentOutputs s') a
        = FlowTimeline.WaitingToStart)).
Proof.
  intros Ho look icon. subst look icon. cbv beta.
  split; [| split]; intros; eexists;
    rewrite (deliver_open i _ s Ho), nodes_handle, lookup_insert_eq;
    (split; [reflexivity |]).
  - split; [| reflexivity]. unfold FlowTimeline.getStatusIcon. simpl.
    rewrite orb_true_r. reflexivity.
  - split; reflexivity.
  - split; [reflexivity |]. split; [reflexivity |].
    intros Hnone. cbv zeta. unfold FlowTimeline.panelBody.
    rewrite agentOutputs_handle, Hnone, nodes_handle, lookup_insert_eq. reflexivity.
Qed.

Lemma node_display_after_event_witness :
  Page.isOpen 0 Sample.streaming = true /\
  exists st,
    FlowNode.status <$>
      Page.nodes (Page.deliver 0 (Event.agent_complete "CEO" None None None)
                    Sample.streaming) !! "CEO" = Some st /\
    FlowTimeline.getStatusIcon ∅ "CEO" st true = FlowTimeline.CheckCircle false.
Proof.
  split; [reflexivity |].
  destruct (node_display_after_event 0 "CEO" Sample.streaming ∅ true eq_refl)
    as (_ & Hc & _).
  destruct (Hc None None None) as (st & Hst & Hicon & _).
  exists st. split; [exact Hst | exact Hicon].
Defined.

(** X14: the "Key Metrics" cards show the KPIs of the agent named CEO and
    nothing else: every event other than an agent_complete of CEO leaves
    them as they are, and an agent_complete of CEO replaces them by its
    [kpis], or by none when it carries insights only, and leaves them when
    it carries neither. *)
Theorem key_metrics_follow_ceo (i : nat) (s : Page.State) :
  (forall e, Page.agentOf e <> Some "CEO" ->
     Page.ceoKpis (Page.deliver i e s) = Page.ceoKpis s) /\
  (forall t error, Page.ceoKpis (Page.deliver i (Event.agent_error "CEO" error) s)
                   = Page.ceoKpis s /\
                   Page.ceoKpis (Page.deliver i (Event.agent_start "CEO" t) s)
                   = Page.ceoKpis s) /\
  (Page.isOpen i s = true ->
   forall t kpis insights,
     Page.ceoKpis (Page.deliver i (Event.agent_complete "CEO" t kpis insights) s) =
       if present kpis || present insights then or_nil kpis else Page.ceoKpis s).
Proof.
  unfold Page.deliver, Page.ceoKpis. split; [| split].
  - intros e He. destruct (Page.isOpen i s); [| reflexivity].
    rewrite agentOutputs_handle. destruct e; try reflexivity.
    destruct (present kpis || present insights); [| reflexivity].
    rewrite lookup_insert_ne; [reflexivity |]. cbn in He. congruence.
  - intros t error. destruct (Page.isOpen i s); split; reflexivity.
  - intros Ho t kpis insights. rewrite Ho, agentOutputs_handle.
    destruct (present kpis || present insights); [| reflexivity].
    rewrite lookup_insert_eq. reflexivity.
Qed.

Lemma key_metrics_follow_ceo_witness :
  Page.isOpen 0 Sample.streaming = true /\
  Page.ceoKpis
    (Page.deliver 0 (Event.agent_complete "CEO" None (Some [Sample.revenue "UP"]) None)
       Sample.streaming) = [Sample.revenue "UP"].
Proof.
  split; [reflexivity |].
  apply (proj2 (proj2 (key_metrics_follow_ceo 0 Sample.streaming)) eq_refl
           None (Some [Sample.revenue "UP"]) None).
Defined.

(** ** The panels *)

(** X15: the constraints panel renders nothing exactly when it is given no
    constraint definitions, and otherwise one tile per definition; the
    page always passes it an empty set of definitions, so in no state
    does the page show a constraint tile, whatever constraint status the
    session reported. *)
Theorem constraints_panel_stays_empty `{NumberFormat} :
  (forall constraints status,
     ConstraintsPanel.render constraints status = None <-> constraints = ∅) /\
  (forall constraints status tiles,
     ConstraintsPanel.render constraints status = Some tiles ->
     length tiles = size constraints /\
     forall k, k ∈ ConstraintsPanel.key <$> tiles <-> is_Some (constraints !! k)) /\
  (forall s, Page.constraintsSection s = None).
Proof.
  split; [| split].
  - intros constraints status. unfold ConstraintsPanel.render.
    rewrite <- map_to_list_empty_iff.
    destruct (map_to_list constraints); split; intros; try reflexivity; discriminate.
  - intros constraints status tiles. unfold ConstraintsPanel.render.
    set (F := fun e : string * Constraint.t =>
                {| ConstraintsPanel.key := e.1;
                   ConstraintsPanel.color := ConstraintsPanel.tileColor status e.1;
                   ConstraintsPanel.mark := (ConstraintsPanel.getStatusIcon status e.1).1;
                   ConstraintsPanel.label := Constraint.name e.2;
                   ConstraintsPanel.text := ConstraintsPanel.formatValue e.2 |}).
    intros Hr.
    assert (Ht : tiles = F <$> map_to_list constraints).
    { destruct (map_to_list constraints); [discriminate |]. injection Hr as <-. reflexivity. }
    rewrite Ht. split.
    + rewrite length_fmap. apply length_map_to_list.
    + intros k. rewrite <- list_fmap_compose, list_elem_of_fmap. split.
      * intros ([k' c] & -> & Hin). apply elem_of_map_to_list in Hin. eauto.
      * intros [c Hc]. exists (k, c). split; [reflexivity |].
        apply elem_of_map_to_list, Hc.
  - intros s. unfold Page.constraintsSection. case_bool_decide; [reflexivity |].
    unfold ConstraintsPanel.render. rewrite map_to_list_empty. reflexivity.
Qed.

(** X16: the mark and the colour of a constraint tile always agree, and
    both depend on the reported status only: green with the check for
    PASS, red with the cross for VIOLATED, and grey with the alert for
    every other status and for a constraint the status does not mention. *)
Theorem constraint_tile_follows_status (status : gmap string string) (key : string) :
  let mark := (ConstraintsPanel.getStatusIcon status key).1 in
  let color := ConstraintsPanel.tileColor status key in
  (mark = ConstraintsPanel.CheckCircle <-> status !! key = Some "PASS") /\
  (mark = ConstraintsPanel.XCircle <-> status !! key = Some "VIOLATED") /\
  (mark = ConstraintsPanel.AlertCircle <->
     status !! key <> Some "PASS" /\ status !! key <> Some "VIOLATED") /\
  (color = "border-green-200 bg-green-50" <-> mark = ConstraintsPanel.CheckCircle) /\
  (color = "border-red-200 bg-red-50" <-> mark = ConstraintsPanel.XCircle) /\
  (color = "border-gray-200 bg-gray-50" <-> mark = ConstraintsPanel.AlertCircle).
Proof.
  unfold ConstraintsPanel.getStatusIcon, ConstraintsPanel.tileColor, is_str.
  destruct (status !! key) as [v |]; cbv zeta.
  - destruct (String.eqb_spec v "PASS") as [-> | Hp]; simpl.
    { repeat split; intros; try reflexivity; try discriminate; intuition congruence. }
    destruct (String.eqb_spec v "VIOLATED") as [-> | Hv]; simpl.
    { repeat split; intros; try reflexivity; try discriminate; intuition congruence. }
    repeat split; intros; try reflexivity; try discriminate; try congruence.
  - repeat split; intros; try reflexivity; try discriminate; intuition congruence.
Qed.

(** X17: the frame, the icon and the badge of a conflict card always
    agree: red with the cross for severity Critical, orange with the
    triangle for High, and yellow with the alert for every other severity,
    so Medium, Low and unknown severities look the same. *)
Theorem conflict_card_follows_severity (severity : string) :
  let mark := (ConflictPanel.getSeverityIcon severity).1 in
  (mark = ConflictPanel.XCircle <-> severity = "Critical") /\
  (mark = ConflictPanel.AlertTriangle <-> severity = "High") /\
  (mark = ConflictPanel.AlertCircle <-> severity <> "Critical" /\ severity <> "High") /\
  (ConflictPanel.getSeverityColor severity = "border-red-500 bg-red-50" <->
     mark = ConflictPanel.XCircle) /\
  (ConflictPanel.getSeverityColor severity = "border-orange-500 bg-orange-50" <->
     mark = ConflictPanel.AlertTriangle) /\
  (ConflictPanel.getSeverityColor severity = "border-yellow-500 bg-yellow-50" <->
     mark = ConflictPanel.AlertCircle) /\
  (ConflictPanel.badgeColor severity = "bg-red-200 text-red-800" <->
     mark = ConflictPanel.XCircle) /\
  (ConflictPanel.badgeColor severity = "bg-orange-200 text-orange-800" <->
     mark = ConflictPanel.AlertTriangle) /\
  (ConflictPanel.badgeColor severity = "bg-yellow-200 text-yellow-800" <->
     mark = ConflictPanel.AlertCircle).
Proof.
  unfold ConflictPanel.getSeverityIcon, ConflictPanel.getSeverityColor,
    ConflictPanel.badgeColor. cbv zeta.
  destruct (String.eqb_spec severity "Critical") as [-> | Hc]; simpl.
  { repeat split; intros; try reflexivity; try discriminate; intuition congruence. }
  destruct (String.eqb_spec severity "High") as [-> | Hh]; simpl.
  { repeat split; intros; try reflexivity; try discriminate; intuition congruence. }
  repeat split; intros; try reflexivity; try discriminate; try congruence.
Qed.

Lemma render_builtConflicts (risks : list string) :
  ConflictPanel.render (Page.builtConflicts risks) =
    (fun r => {| ConflictPanel.frame := "border-yellow-500 bg-yellow-50";
                 ConflictPanel.mark := ConflictPanel.AlertCircle;
                 ConflictPanel.badge := "bg-yellow-200 text-yellow-800";
                 ConflictPanel.title := r |}) <$> risks.
Proof.
  unfold ConflictPanel.render, Page.builtConflicts.
  induction risks as [| r rest IH]; [reflexivity |].
  cbn [List.map]. rewrite !fmap_cons, IH. reflexivity.
Qed.

(** X18: when the page rebuilds an evaluation from a chat answer, the
    conflict panel shows one card per risk of the answer, in the answer's
    order and with the risk as title, and every card is the yellow alert
    card: a rebuilt evaluation never shows a High or Critical conflict. *)
Theorem rebuilt_conflicts_are_all_medium (data : ChatResponse.t) (overall_score : Q) :
  let cards := ConflictPanel.render
                 (Evaluation.conflicts (Page.buildEvaluation data overall_score)) in
  ConflictPanel.title <$> cards = or_nil (ChatResponse.risks data) /\
  Forall (fun c => ConflictPanel.mark c = ConflictPanel.AlertCircle /\
                   ConflictPanel.frame c = "border-yellow-500 bg-yellow-50" /\
                   ConflictPanel.badge c = "bg-yellow-200 text-yellow-800") cards /\
  Evaluation.has_blocking_conflicts (Page.buildEvaluation data overall_score) = false.
Proof.
  cbv zeta.
  assert (Hc : Evaluation.conflicts (Page.buildEvaluation data overall_score)
               = Page.builtConflicts (or_nil (ChatResponse.risks data))).
  { unfold Page.buildEvaluation. cbn [Evaluation.conflicts].
    destruct (ChatResponse.risks data); reflexivity. }
  rewrite Hc, render_builtConflicts. split; [| split; [| reflexivity]].
  - rewrite <- list_fmap_compose. apply list_fmap_id.
  - apply Forall_fmap, Forall_true. intros r. repeat split.
Qed.

Lemma constraints_panel_stays_empty_witness :
  exists tiles,
    ConstraintsPanel.render (H := Sample.plain)
      {[ "margin_floor" := Sample.marginFloor ]} {[ "margin_floor" := "VIOLATED" ]}
    = Some tiles /\
    length tiles = 1 /\
    ConstraintsPanel.text <$> tiles = ["≥ 18%"].
Proof.
  eexists. split; [vm_compute; reflexivity |]. split; [| vm_compute; reflexivity].
  refine (proj1 (proj1 (proj2 (@constraints_panel_stays_empty Sample.plain))
                   {[ "margin_floor" := Sample.marginFloor ]}
                   {[ "margin_floor" := "VIOLATED" ]} _ _)).
  vm_compute. reflexivity.
Defined.

(** ** Strings and numbers on display *)

(** [replace_first] rewrites one occurrence: the length stays, the count
    of [c] drops by one, and a string without [c] passes as it is. *)
Lemma replace_first_replaces_one (c d : ascii) (str : string) :
  c <> d ->
  String.length (Page.replace_first c d str) = String.length str /\
  Page.occurrences c (Page.replace_first c d str) = pred (Page.occurrences c str) /\
  (Page.occurrences c str = 0 -> Page.replace_first c d str = str).
Proof.
  intros Hcd. induction str as [| x rest (IHlen & IHocc & IHid)]; [repeat split |].
  cbn [Page.replace_first Page.occurrences].
  destruct (Ascii.eqb_spec x c) as [-> | Hx].
  - cbn [Page.occurrences String.length].
    destruct (Ascii.eqb_spec d c) as [-> | _]; [contradiction Hcd; reflexivity |].
    repeat split; try reflexivity. discriminate.
  - cbn [Page.occurrences String.length].
    destruct (Ascii.eqb_spec x c) as [-> | _]; [contradiction Hx; reflexivity |].
    cbn [Nat.add]. split; [f_equal; exact IHlen |]. split; [exact IHocc |].
    intros H0. f_equal. apply IHid, H0.
Qed.

(** It is the first occurrence that is rewritten: what stands before it
    and everything after it are kept. *)
Lemma replace_first_split (c d : ascii) (pre post : string) :
  Page.occurrences c pre = 0 ->
  Page.replace_first c d (pre +:+ String c post) = pre +:+ String d post.
Proof.
  induction pre as [| x pre IH]; intros H0.
  - change (Page.replace_first c d (String c post) = String d post).
    cbn [Page.replace_first]. rewrite Ascii.eqb_refl. reflexivity.
  - change (Page.replace_first c d (String x (pre +:+ String c post)) =
            String x (pre +:+ String d post)).
    cbn [Page.occurrences] in H0. cbn [Page.replace_first].
    destruct (Ascii.eqb x c); [discriminate H0 |].
    f_equal. apply IH, H0.
Qed.

Lemma streamUrl_closeExisting_reset (env : option string) (s : Page.State) :
  Page.streamUrl env (Page.closeExisting (Page.resetForStreaming s)) = Page.streamUrl env s.
Proof.
  unfold Page.closeExisting. rewrite ref_reset.
  destruct (Page.eventSourceRef s); reflexivity.
Qed.

(** X19: the connection "Run Flow" opens has the stream URL of the page,
    whose flow segment is the selected flow id with its first underscore
    turned into a hyphen: what stands before the first underscore and
    everything after it, later underscores included, is kept, and an id
    without underscore passes as it is.  The URL is the API base, the path
    [/api/flows/stream/], that segment, the selected mode and the fixed
    period. *)
Theorem stream_url_hyphenates_first_underscore (env : option string) (s : Page.State) :
  let url flowType :=
    or_str env "http://localhost:8000" +:+ "/api/flows/stream/" +:+ flowType
      +:+ "?mode=" +:+ Page.selectedMode s
      +:+ "&period_start=2025-11-01&period_end=2026-01-30" in
  last (Page.sources (Page.runFlowWithStreaming env s)) =
    Some (EventSource.mk (Page.streamUrl env s) true) /\
  (forall pre post,
     Page.selectedFlow s = pre +:+ String "_" post ->
     Page.occurrences "_" pre = 0 ->
     Page.streamUrl env s = url (pre +:+ String "-" post)) /\
  (Page.occurrences "_" (Page.selectedFlow s) = 0 ->
   Page.streamUrl env s = url (Page.selectedFlow s)).
Proof.
  intros url. subst url. cbv beta. split; [| split].
  - unfold Page.runFlowWithStreaming. rewrite sources_openSource, last_snoc.
    rewrite streamUrl_closeExisting_reset. reflexivity.
  - intros pre post Hflow Hpre. unfold Page.streamUrl.
    rewrite Hflow, (replace_first_split _ _ _ _ Hpre). reflexivity.
  - intros H0. unfold Page.streamUrl.
    assert (Hne : "_"%char <> "-"%char) by discriminate.
    rewrite (proj2 (proj2 (replace_first_replaces_one "_" "-" _ Hne)) H0). reflexivity.
Qed.

Lemma stream_url_hyphenates_first_underscore_witness :
  Page.selectedFlow (Page.setSelectedFlow "what_if_scenario" Page.initial) =
    "what" +:+ String "_" "if_scenario" /\
  Page.occurrences "_" "what" = 0 /\
  Page.streamUrl None (Page.setSelectedFlow "what_if_scenario" Page.initial) =
    "http://localhost:8000/api/flows/stream/what-if_scenario?mode=summary&period_start=2025-11-01&period_end=2026-01-30".
Proof.
  assert (Hf : Page.selectedFlow (Page.setSelectedFlow "what_if_scenario" Page.initial) =
               "what" +:+ String "_" "if_scenario") by reflexivity.
  assert (Ho : Page.occurrences "_" "what" = 0) by reflexivity.
  split; [exact Hf |]. split; [exact Ho |].
  rewrite (proj1 (proj2 (stream_url_hyphenates_first_underscore None
                           (Page.setSelectedFlow "what_if_scenario" Page.initial)))
             "what" "if_scenario" Hf Ho).
  reflexivity.
Defined.

(** X20: the direction arrow of a signal in the handoff drawer and the
    trend icon of the KPI card classify every direction the same way: up
    for 'UP', down for 'DOWN', neutral for anything else or nothing. *)
Theorem drawer_arrow_matches_card_icon (kpi : KPI.t) :
  indicatorOfArrow (HandoffDrawer.signalArrow (KPI.trend kpi)) =
    Some (indicatorOfIcon (KPICard.getTrendIcon kpi).1).
Proof.
  unfold HandoffDrawer.signalArrow, KPICard.getTrendIcon.
  destruct (is_str (KPI.trend kpi) "UP"); [reflexivity |].
  destruct (is_str (KPI.trend kpi) "DOWN"); reflexivity.
Qed.

(** X21: a KPI line of the handoff drawer agrees with the KPI card and the
    timeline tile for the unit '%'; for the unit '$' the drawer puts the
    plain value before the sign (value, space, '$') where the card and the
    tile put the sign before the localised value. *)
Theorem drawer_kpi_line_vs_card `{NumberFormat} (kpi : KPI.t) :
  (KPI.unit kpi = "%" ->
   HandoffDrawer.kpiLine kpi = KPICard.formatValue kpi /\
   HandoffDrawer.kpiLine kpi = FlowTimeline.formatKPIValue kpi) /\
  (KPI.unit kpi = "$" ->
   HandoffDrawer.kpiLine kpi = toString (KPI.value kpi) +:+ " $" /\
   KPICard.formatValue kpi = "$" +:+ toLocaleString (KPI.value kpi)).
Proof.
  unfold HandoffDrawer.kpiLine, KPICard.formatValue, FlowTimeline.formatKPIValue.
  split; intros ->; split; reflexivity.
Qed.

Lemma drawer_kpi_line_vs_card_witness :
  HandoffDrawer.kpiLine (H := Sample.plain) (Sample.revenue "UP") = "1250000 $" /\
  KPICard.formatValue (H := Sample.plain) (Sample.revenue "UP") = "$1250000".
Proof.
  destruct (proj2 (@drawer_kpi_line_vs_card Sample.plain (Sample.revenue "UP")) eq_refl)
    as [Hl Hc].
  split; [rewrite Hl | rewrite Hc]; vm_compute; reflexivity.
Defined.

(** X22: the colour of the overall score and the colour of a dimension's
    bar band a score alike (green from 8, yellow from 6, orange from 4,
    red below), the band depends on the value only, and it never gets
    worse as the score rises: above a green score everything is green,
    below a red one everything is red. *)
Theorem score_colours_agree (s1 s2 : Q) :
  (EvaluatorScore.getScoreColor s1 = "text-green-600" <->
     EvaluatorScore.barColor s1 = "bg-green-500") /\
  (EvaluatorScore.getScoreColor s1 = "text-yellow-600" <->
     EvaluatorScore.barColor s1 = "bg-yellow-500") /\
  (EvaluatorScore.getScoreColor s1 = "text-orange-600" <->
     EvaluatorScore.barColor s1 = "bg-orange-500") /\
  (EvaluatorScore.getScoreColor s1 = "text-red-600" <->
     EvaluatorScore.barColor s1 = "bg-red-500") /\
  ((s1 == s2)%Q -> EvaluatorScore.getScoreColor s1 = EvaluatorScore.getScoreColor s2) /\
  ((s1 <= s2)%Q ->
     (EvaluatorScore.getScoreColor s1 = "text-green-600" ->
      EvaluatorScore.getScoreColor s2 = "text-green-600") /\
     (EvaluatorScore.getScoreColor s2 = "text-red-600" ->
      EvaluatorScore.getScoreColor s1 = "text-red-600")).
Proof.
  unfold EvaluatorScore.getScoreColor, EvaluatorScore.barColor.
  split; [| split; [| split; [| split; [| split]]]].
  1-4: destruct (Qle_bool 8 s1), (Qle_bool 6 s1), (Qle_bool 4 s1);
    split; intros; try reflexivity; discriminate.
  - intros He.
    assert (Hb : forall t, Qle_bool t s1 = Qle_bool t s2)
      by (intros t; rewrite He; reflexivity).
    rewrite !Hb. reflexivity.
  - intros Hle.
    destruct (Qle_bool 8 s1) eqn:A1;
      [apply Qle_bool_iff in A1 | apply Qle_bool_false in A1];
    (destruct (Qle_bool 6 s1) eqn:B1;
      [apply Qle_bool_iff in B1 | apply Qle_bool_false in B1]);
    (destruct (Qle_bool 4 s1) eqn:C1;
      [apply Qle_bool_iff in C1 | apply Qle_bool_false in C1]);
    (destruct (Qle_bool 8 s2) eqn:A2;
      [apply Qle_bool_iff in A2 | apply Qle_bool_false in A2]);
    (destruct (Qle_bool 6 s2) eqn:B2;
      [apply Qle_bool_iff in B2 | apply Qle_bool_false in B2]);
    (destruct (Qle_bool 4 s2) eqn:C2;
      [apply Qle_bool_iff in C2 | apply Qle_bool_false in C2]);
    split; intros; try reflexivity; try discriminate; exfalso; lra.
Qed.

Lemma score_colours_agree_witness :
  (8.5 <= 9)%Q /\ EvaluatorScore.getScoreColor 9 = "text-green-600".
Proof.
  assert (H : (8.5 <= 9)%Q) by (unfold Qle; simpl; lia).
  split; [exact H |].
  apply (proj1 (proj2 (proj2 (proj2 (proj2 (proj2 (score_colours_agree 8.5 9))))) H)).
  reflexivity.
Defined.

(** ** Runs and their failures *)

Lemma step_keeps_loading (env : option string) (a : Page.action) (s s' : Page.State) (i : nat) :
  Page.endsLoading a = false ->
  Page.step env a s = Some s' ->
  Page.loading s = true -> Page.isOpen i s = true ->
  Page.loading s' = true /\ Page.isOpen i s' = true.
Proof.
  intros Ha Hstep Hl Ho. destruct a; try discriminate Ha; simpl in Hstep.
  - injection Hstep as <-. split; assumption.
  - injection Hstep as <-. split; assumption.
  - injection Hstep as <-. split; assumption.
  - rewrite Hl in Hstep. discriminate.
  - rewrite Hl in Hstep. discriminate.
  - injection Hstep as <-. rewrite question_start_keeps_stream. split; [| exact Ho].
    unfold Page.askBegin. destruct (Page.blank (Page.question s)); [exact Hl | reflexivity].
  - destruct (Page.isOpen i0 s); [| discriminate]. injection Hstep as <-.
    split; assumption.
  - destruct (Page.isOpen i0 s); [| discriminate]. injection Hstep as <-.
    cbn [Page.endsLoading] in Ha. rewrite (handle_keeps_open i0 i e s Ha).
    destruct (handle_cells i0 e s) as (_ & Hk). destruct (Hk Ha) as [Hl' _].
    rewrite Hl'. split; assumption.
  - injection Hstep as <-. split; assumption.
Qed.

Lemma run_keeps_loading (env : option string) (acts : list Page.action) (s s' : Page.State)
    (i : nat) :
  forallb (fun a => negb (Page.endsLoading a)) acts = true ->
  Page.run env acts s = Some s' ->
  Page.loading s = true -> Page.isOpen i s = true ->
  Page.loading s' = true /\ Page.isOpen i s' = true.
Proof.
  revert s. induction acts as [| a rest IH]; intros s Hq Hrun Hl Ho; simpl in Hrun.
  - injection Hrun as <-. split; assumption.
  - cbn [forallb] in Hq. apply andb_prop in Hq as [Ha Hrest].
    apply negb_true_iff in Ha.
    destruct (Page.step env a s) as [s1 |] eqn:E; [| discriminate].
    destruct (step_keeps_loading env a s s1 i Ha E Hl Ho) as [Hl1 Ho1].
    apply (IH s1 Hrest Hrun Hl1 Ho1).
Qed.

Lemma step_ends_loading (env : option string) (a : Page.action) (s s' : Page.State) :
  Page.endsLoading a = true ->
  Page.step env a s = Some s' ->
  Page.loading s' = false.
Proof.
  intros Ha Hstep. destruct a; try discriminate Ha; simpl in Hstep.
  - destruct (Page.inflight s); [discriminate |]. injection Hstep as <-.
    apply askSettle_cells.
  - destruct (Page.isOpen i s); [| discriminate]. injection Hstep as <-.
    destruct e; try discriminate Ha. reflexivity.
  - destruct (Page.isOpen i s); [| discriminate]. injection Hstep as <-. reflexivity.
Qed.

(** X23: once "Run Flow" has started a stream, only three things turn
    loading off: a session_complete event, a connection error, and the
    settling of a chat request.  Through any other user actions and stream
    events loading stays on and the connection of the run stays open; and
    each of the three, when it happens, turns loading off. *)
Theorem loading_ends_only_by_completion
    (env : option string) (acts : list Page.action) (s s' : Page.State) :
  Page.singleConnection s ->
  Page.run env acts (Page.runFlowWithStreaming env s) = Some s' ->
  (forallb (fun a => negb (Page.endsLoading a)) acts = true ->
   Page.loading s' = true /\ Page.isOpen (length (Page.sources s)) s' = true) /\
  (forall a s'', Page.endsLoading a = true -> Page.step env a s' = Some s'' ->
   Page.loading s'' = false).
Proof.
  intros Hs Hrun. split.
  - intros Hq.
    destruct (streaming_start_closes_all env s Hs) as (_ & _ & Hopen).
    destruct (streaming_start_clears env s) as (_ & Hload & _).
    apply (run_keeps_loading env acts _ s' _ Hq Hrun Hload Hopen).
  - intros a s'' Ha Hstep. apply (step_ends_loading env a s' s'' Ha Hstep).
Qed.

Lemma loading_ends_only_by_completion_witness :
  Page.singleConnection Page.initial /\
  Page.run None Sample.busy (Page.runFlowWithStreaming None Page.initial)
    = Some (default Page.initial (Page.run None Sample.busy Sample.streaming)) /\
  Page.loading (default Page.initial (Page.run None Sample.busy Sample.streaming)) = true.
Proof.
  assert (Hs : Page.singleConnection Page.initial)
    by (split; intros j Hj; discriminate Hj).
  assert (Hrun : Page.run None Sample.busy (Page.runFlowWithStreaming None Page.initial)
                 = Some (default Page.initial (Page.run None Sample.busy Sample.streaming)))
    by (vm_compute; reflexivity).
  split; [exact Hs |]. split; [exact Hrun |].
  apply (proj1 (loading_ends_only_by_completion None Sample.busy Page.initial _ Hs Hrun)).
  reflexivity.
Defined.

Lemma streamStatus_runFlowWithStreaming (env : option string) (s : Page.State) :
  Page.streamStatus (Page.runFlowWithStreaming env s) = "Starting...".
Proof.
  unfold Page.runFlowWithStreaming, Page.closeExisting. rewrite ref_reset.
  destruct (Page.eventSourceRef s); reflexivity.
Qed.

(** Whatever turns loading on writes a fresh status line with it. *)
Lemma loading_starts_with_fresh_status (env : option string) (a : Page.action)
    (s s' : Page.State) :
  Page.step env a s = Some s' ->
  Page.loading s = false -> Page.loading s' = true ->
  Page.streamStatus s' = "Starting..." \/ Page.streamStatus s' = "Analyzing question...".
Proof.
  intros Hstep Hl Hl'. destruct a; simpl in Hstep.
  - injection Hstep as <-. simpl in Hl'. congruence.
  - injection Hstep as <-. simpl in Hl'. congruence.
  - injection Hstep as <-. simpl in Hl'. congruence.
  - destruct (Page.loading s); [discriminate |]. injection Hstep as <-.
    left. apply streamStatus_runFlowWithStreaming.
  - destruct (Page.loading s || Page.blank (Page.question s)); [discriminate |].
    injection Hstep as <-. unfold Page.askBegin in *.
    destruct (Page.blank (Page.question s)); [congruence | right; reflexivity].
  - injection Hstep as <-. unfold Page.askBegin in *.
    destruct (Page.blank (Page.question s)); [congruence | right; reflexivity].
  - destruct (Page.inflight s); [discriminate |]. injection Hstep as <-.
    destruct (askSettle_cells now o s) as (Hf & _). congruence.
  - destruct (Page.isOpen i s); [| discriminate]. injection Hstep as <-.
    simpl in Hl'. congruence.
  - destruct (Page.isOpen i s); [| discriminate]. injection Hstep as <-.
    destruct (Page.isSessionComplete e) eqn:Ec.
    + destruct e; try discriminate Ec. simpl in Hl'. discriminate Hl'.
    + destruct (handle_cells i e s) as (_ & Hk). destruct (Hk Ec) as [Hk' _]. congruence.
  - destruct (Page.isOpen i s); [| discriminate]. injection Hstep as <-.
    simpl in Hl'. discriminate Hl'.
  - injection Hstep as <-. simpl in Hl'. congruence.
Qed.

(** X24: a question that fails - the request is rejected, or the answer is
    not ok - writes "Error: " and the rejection's message, or the answer's
    [detail], or "Failed to process question", into the status line and
    turns loading off, and leaves every other cell of the page as it finds
    it.  The page does not display that text: the status line is rendered
    only while loading is on, so the two buttons read "Ask" and "Run Flow"
    and the timeline has no status; and whatever turns loading on again,
    however many actions later, sets the status line to "Starting..." or
    "Analyzing question..." in the same step. *)
Theorem failed_question_error_is_not_displayed
    (now : string) (o : Page.chatOutcome) (s : Page.State) :
  (forall data, o <> Page.Answered true data) ->
  let s' := Page.askSettle now o s in
  Page.streamStatus s' =
    "Error: " +:+ match o with
                  | Page.Rejected message => message
                  | Page.Answered _ data =>
                      or_str (ChatResponse.detail data) "Failed to process question"
                  end /\
  Page.loading s' = false /\
  s' = Page.setInflight (pred (Page.inflight s))
         (Page.setLoading false (Page.setStreamStatus (Page.streamStatus s') s)) /\
  (Page.askLabel s' = "Ask" /\ Page.runLabel s' = "Run Flow" /\ Page.timelineStatus s' = None) /\
  (forall env acts s1 a s2,
     Page.run env acts s' = Some s1 -> Page.loading s1 = false ->
     Page.step env a s1 = Some s2 -> Page.loading s2 = true ->
     Page.streamStatus s2 = "Starting..." \/ Page.streamStatus s2 = "Analyzing question...").
Proof.
  intros Hfail s'.
  assert (Hl : Page.loading s' = false) by apply askSettle_cells.
  split; [| split; [exact Hl | split; [| split]]].
  - subst s'. destruct o as [m | [] data]; [| contradiction (Hfail data); reflexivity |];
      reflexivity.
  - subst s'. destruct o as [m | [] data]; [| contradiction (Hfail data); reflexivity |];
      reflexivity.
  - unfold Page.askLabel, Page.runLabel, Page.timelineStatus. rewrite Hl, andb_false_r.
    repeat split; reflexivity.
  - intros env acts s1 a s2 _ Hl1 Hstep Hl2.
    apply (loading_starts_with_fresh_status env a s1 s2 Hstep Hl1 Hl2).
Qed.

Lemma failed_question_error_is_not_displayed_witness :
  Page.streamStatus
    (Page.askSettle "now" (Page.Rejected "Failed to fetch")
       (Page.askBegin (Page.setQuestion "How are we doing?" Sample.handed_off)))
  = "Error: Failed to fetch" /\
  Page.askLabel
    (Page.askSettle "now" (Page.Rejected "Failed to fetch")
       (Page.askBegin (Page.setQuestion "How are we doing?" Sample.handed_off)))
  = "Ask".
Proof.
  assert (Hfail : forall data, Page.Rejected "Failed to fetch" <> Page.Answered true data)
    by (intros data; discriminate).
  destruct (failed_question_error_is_not_displayed "now" (Page.Rejected "Failed to fetch")
              (Page.askBegin (Page.setQuestion "How are we doing?" Sample.handed_off)) Hfail)
    as (Hst & _ & _ & (Hask & _) & _).
  split; [exact Hst | exact Hask].
Defined.




(** X26: the description under the flow selector is the catalogue entry of
    the selected id: each of the four ids shows its own description, and
    any other id, such as one written with a hyphen, shows none. *)
Theorem selector_describes_catalogue_flows (selected : string) :
  (forall f, f ∈ FlowSelector.FLOWS ->
     FlowSelector.selectedDescription (FlowSelector.id f) = Some (FlowSelector.description f)) /\
  (selected ∉ ["kpi_review"; "trade_off"; "scenario"; "root_cause"] ->
   FlowSelector.selectedDescription selected = None) /\
  (forall d, FlowSelector.selectedDescription selected = Some d ->
     exists f, f ∈ FlowSelector.FLOWS /\ FlowSelector.id f = selected /\
               FlowSelector.description f = d).
Proof.
  split; [| split].
  - intros f Hf. unfold FlowSelector.FLOWS in Hf.
    repeat (apply elem_of_cons in Hf as [-> | Hf]; [reflexivity |]). inversion Hf.
  - intros Hn. unfold FlowSelector.selectedDescription, FlowSelector.FLOWS.
    cbn [List.find FlowSelector.id].
    repeat match goal with
           | |- context [String.eqb ?a selected] =>
               destruct (String.eqb_spec a selected) as [<- | _];
               [exfalso; apply Hn; set_solver |]
           end.
    reflexivity.
  - intros d Hd. unfold FlowSelector.selectedDescription in Hd.
    destruct (List.find _ FlowSelector.FLOWS) as [f |] eqn:Ef; [| discriminate].
    injection Hd as <-. apply List.find_some in Ef as [Hin He].
    exists f. split; [apply list_elem_of_In, Hin |].
    split; [symmetry; apply String.eqb_eq | reflexivity].
    rewrite String.eqb_sym. exact He.
Qed.

Lemma selector_describes_catalogue_flows_witness :
  FlowSelector.selectedDescription "kpi-review" = None.
Proof.
  apply (selector_describes_catalogue_flows "kpi-review").
  apply (bool_decide_unpack _). vm_compute. exact I.
Defined.
